(** * typing-fingers: the keystroke state machine of [TypingPractice]

    A shallow embedding of [src/components/TypingPractice.tsx], of the
    earlier variant of the same component and of [src/utils/fingeringMap.ts],
    together with the properties of the session state machine and of the
    values derived from it at each render.

    Modelling conventions.
    - A JavaScript [number] that holds a counter or an index is a [Z]; the
      two derived statistics are computed, as in the source, in IEEE-754
      binary64 arithmetic (Rocq's primitive floats) and then rounded with
      [Math.round].
    - A JavaScript string is a [string]; one [ascii] stands for one UTF-16
      code unit, so [String.length] is the [.length] of the source.
    - The component's [useState] cells are the fields of [State]; a setter
      call is a record update.  Within one handler the plain setters receive
      values computed from the rendered state (the closure) and the
      functional ones receive the pending value, exactly as React batches
      them.
    - Events are delivered one at a time, each against the latest render;
      after every update the effects run ([autoEnd]). *)

From Stdlib Require Import ZArith List String Ascii Bool Lia.
From Stdlib Require Import DecimalString DecimalZ.
From Stdlib Require Import Floats.PrimFloat Floats.SpecFloat Floats.FloatOps.
Import ListNotations.

Local Open Scope string_scope.
Local Open Scope Z_scope.

(** ** JavaScript primitives used by the component *)

Module JS.

(** [s.length]. *)
Definition length (s : string) : Z := Z.of_nat (String.length s).

(** [s[i]]: a one-character string, or [undefined] ([None]) out of range. *)
Definition at_index (s : string) (i : Z) : option string :=
  if i <? 0 then None
  else match String.get (Z.to_nat i) s with
       | Some c => Some (String c EmptyString)
       | None => None
       end.

(** [k === t] where [t] may be [undefined]. *)
Definition strict_eq (k : string) (t : option string) : bool :=
  match t with
  | Some t' => String.eqb k t'
  | None => false
  end.

(** [s.substring(0, n)]: negative [n] counts as 0, large [n] is clamped. *)
Definition substring0 (s : string) (n : Z) : string :=
  String.substring 0 (Z.to_nat n) s.

(** [n.toString()] for an integer-valued number. *)
Definition toString (n : Z) : string := NilZero.string_of_int (Z.to_int n).

(** The binary64 value of an integer (nearest, ties to even). *)
Definition of_Z (n : Z) : float :=
  SF2Prim (binary_normalize prec emax n 0 false).

(** [Math.round]: the nearest integer, ties towards plus infinity, computed
    exactly from the mantissa and exponent of a finite argument.  The sign
    of a zero result is dropped; NaN and the infinities, which
    [Math.round] returns unchanged, have no integer value and are mapped
    to 0 (both call sites divide by a positive number, so they do not
    arise there). *)
Definition Math_round (x : float) : Z :=
  match Prim2SF x with
  | S754_finite s m e =>
      let v := if s then Z.neg m else Z.pos m in
      if 0 <=? e then v * 2 ^ e
      else (v + 2 ^ (- e - 1)) / 2 ^ (- e)
  | _ => 0
  end.

(** [Math.floor] of a finite argument, exactly (as for [Math_round], the
    arguments that have no integer value are mapped to 0). *)
Definition Math_floor (x : float) : Z :=
  match Prim2SF x with
  | S754_finite s m e =>
      let v := if s then Z.neg m else Z.pos m in
      if 0 <=? e then v * 2 ^ e else v / 2 ^ (- e)
  | _ => 0
  end.

(** [a % b] on integer-valued numbers: the sign follows the dividend. *)
Definition remainder (a b : Z) : Z := Z.rem a b.

(** The lower case of one code unit below 256: [A]-[Z] and the capital
    letters of Latin-1 (U+00C0-U+00DE without the multiplication sign) move
    up by 32, every other unit is its own lower case. *)
Definition lowerUnit (a : ascii) : ascii :=
  let n := N_of_ascii a in
  if ((65 <=? n) && (n <=? 90)
      || (192 <=? n) && (n <=? 222) && negb (n =? 215))%N
  then ascii_of_N (n + 32)
  else a.

(** [s.toLowerCase()]. *)
Fixpoint toLowerCase (s : string) : string :=
  match s with
  | EmptyString => EmptyString
  | String a r => String (lowerUnit a) (toLowerCase r)
  end.

(** [n] characters taken from [pad] over and over; [rest] is what is left of
    the copy being read. *)
Fixpoint fill (n : nat) (pad rest : string) : string :=
  match n with
  | O => EmptyString
  | S k =>
      match rest with
      | String c r => String c (fill k pad r)
      | EmptyString =>
          match pad with
          | String c r => String c (fill k pad r)
          | EmptyString => EmptyString
          end
      end
  end.

(** [s.padStart(targetLength, padString)]. *)
Definition padStart (s : string) (targetLength : Z) (padString : string)
  : string :=
  if targetLength <=? length s then s
  else fill (Z.to_nat (targetLength - length s)) padString padString ++ s.

(** Truthiness of a string: the empty string is the only falsy one. *)
Definition truthy (s : string) : bool :=
  match s with EmptyString => false | String _ _ => true end.

End JS.

(** ** Data model *)

(** The passage catalog. *)
Definition TEXTS : list string :=
  [ "The quick brown fox jumps over the lazy dog. This is a pangram that contains every letter of the alphabet.";
    "Practice makes perfect. Consistent typing practice helps improve speed and accuracy significantly.";
    "Typing is a fundamental skill in the digital age. Learning proper fingering technique is essential." ].

Record Stats := mkStats {
  elapsed : Z;
  correctChars : Z;
  totalChars : Z;
  errors : Z;
  backspaces : Z
}.

Module SavedResult.
Record t := mk {
  id : string;
  text : string;
  time : Z;
  wpm : Z;
  accuracy : Z;
  errors : Z;
  backspaces : Z;
  timestamp : string
}.
End SavedResult.

(** The part of a DOM [KeyboardEvent] the handler reads. *)
Record KeyboardEvent := mkKey {
  key : string;
  ctrlKey : bool;
  metaKey : bool;
  altKey : bool
}.

(** What the environment answers when the completion effect reads the clock:
    [Date.now()] and [new Date().toLocaleString()]. *)
Record Clock := mkClock {
  now : Z;
  localeString : string
}.

(** The [useState] cells of [TypingPractice]. *)
Record State := mkState {
  currentTextIndex : Z;
  currentText : string;
  currentIndex : Z;
  stats : Stats;
  isActive : bool;
  savedResults : list SavedResult.t;
  isFinished : bool
}.

(** ** State setters *)

Definition setCurrentTextIndex (v : Z) (s : State) : State :=
  mkState v (currentText s) (currentIndex s) (stats s) (isActive s)
          (savedResults s) (isFinished s).

Definition setCurrentIndex (v : Z) (s : State) : State :=
  mkState (currentTextIndex s) (currentText s) v (stats s) (isActive s)
          (savedResults s) (isFinished s).

Definition setStats (f : Stats -> Stats) (s : State) : State :=
  mkState (currentTextIndex s) (currentText s) (currentIndex s) (f (stats s))
          (isActive s) (savedResults s) (isFinished s).

Definition setIsActive (v : bool) (s : State) : State :=
  mkState (currentTextIndex s) (currentText s) (currentIndex s) (stats s) v
          (savedResults s) (isFinished s).

Definition setSavedResults (f : list SavedResult.t -> list SavedResult.t)
    (s : State) : State :=
  mkState (currentTextIndex s) (currentText s) (currentIndex s) (stats s)
          (isActive s) (f (savedResults s)) (isFinished s).

Definition setIsFinished (v : bool) (s : State) : State :=
  mkState (currentTextIndex s) (currentText s) (currentIndex s) (stats s)
          (isActive s) (savedResults s) v.

(** The spread updates [{ ...prev, field: prev.field + 1 }]. *)
Definition tickElapsed (prev : Stats) : Stats :=
  mkStats (elapsed prev + 1) (correctChars prev) (totalChars prev)
          (errors prev) (backspaces prev).

Definition countBackspace (prev : Stats) : Stats :=
  mkStats (elapsed prev) (correctChars prev) (totalChars prev)
          (errors prev) (backspaces prev + 1).

Definition countCorrect (prev : Stats) : Stats :=
  mkStats (elapsed prev) (correctChars prev + 1) (totalChars prev + 1)
          (errors prev) (backspaces prev).

Definition countError (prev : Stats) : Stats :=
  mkStats (elapsed prev) (correctChars prev) (totalChars prev + 1)
          (errors prev + 1) (backspaces prev).

Definition zeroStats : Stats := mkStats 0 0 0 0 0.

(** ** The component *)

(** The state of the first render on a given passage. *)
Definition mountWith (passage : string) : State :=
  mkState 0 passage 0 zeroStats false [] false.

(** The first render of the shipped component: [TEXTS[0]]. *)
Definition mount : State := mountWith (nth 0 TEXTS "").

(** [wpm], as computed at each render from [stats]. *)
Definition wpm (st : Stats) : Z :=
  if 0 <? elapsed st
  then JS.Math_round
         ((JS.of_Z (correctChars st) / JS.of_Z 5)
          / (JS.of_Z (elapsed st) / JS.of_Z 60))%float
  else 0.

(** [accuracy], as computed at each render from [stats]. *)
Definition accuracy (st : Stats) : Z :=
  let totalInput := correctChars st + errors st in
  if 0 <? totalInput
  then JS.Math_round
         ((JS.of_Z (correctChars st) / JS.of_Z totalInput)
          * JS.of_Z 100)%float
  else 100.

(** The key is neither Backspace nor typed text: a modifier is held or the
    key identifier is longer than one code unit. *)
Definition ignoredKey (e : KeyboardEvent) : bool :=
  ctrlKey e || metaKey e || altKey e || (1 <? JS.length (key e)).

Definition handleKeyDown (s : State) (e : KeyboardEvent) : State :=
  if JS.length (currentText s) <=? currentIndex s then s
  else
    (* Start timer on first input *)
    let s1 := if negb (isActive s) then setIsActive true s else s in
    let targetChar := JS.at_index (currentText s) (currentIndex s) in
    if String.eqb (key e) "Backspace" then
      if 0 <? currentIndex s
      then setStats countBackspace (setCurrentIndex (currentIndex s - 1) s1)
      else s1
    else if ignoredKey e then s1
    else if JS.strict_eq (key e) targetChar then
      setStats countCorrect (setCurrentIndex (currentIndex s + 1) s1)
    else
      (* Always advance on error *)
      setCurrentIndex (currentIndex s + 1) (setStats countError s1).

(** One firing of the one-second interval; the interval only exists while
    [isActive && currentIndex > 0]. *)
Definition tick (s : State) : State :=
  if isActive s && (0 <? currentIndex s)
  then setStats tickElapsed s
  else s.

(** The auto-end effect. *)
Definition autoEnd (clk : Clock) (s : State) : State :=
  if (JS.length (currentText s) <=? currentIndex s)
     && isActive s && negb (isFinished s)
  then
    if (0 <? elapsed (stats s)) || (0 <? currentIndex s) then
      let newResult :=
        SavedResult.mk
          (JS.toString (now clk))
          (JS.substring0 (currentText s) (currentIndex s))
          (elapsed (stats s))
          (wpm (stats s))
          (accuracy (stats s))
          (errors (stats s))
          (backspaces (stats s))
          (localeString clk) in
      setIsActive false
        (setIsFinished true (setSavedResults (cons newResult) s))
    else s
  else s.

Definition handleReset (s : State) : State :=
  setIsFinished false
    (setIsActive false (setStats (fun _ => zeroStats) (setCurrentIndex 0 s))).

Definition handleSelectText (index : Z) (s : State) : State :=
  handleReset (setCurrentTextIndex index s).

Definition isCompleted (s : State) : bool :=
  JS.length (currentText s) <=? currentIndex s.

(** ** Events and runs *)

(** What can happen to a mounted component: a key goes down on the window,
    the interval fires, a passage button is clicked, or React simply renders
    again and re-evaluates the effects. *)
Inductive Event :=
| KeyDown (e : KeyboardEvent)
| Tick
| ClickText (index : Z)
| Rerender.

(** The handler an event reaches.  The passage buttons exist for the indices
    of [TEXTS] and are [disabled] while [isActive]. *)
Definition dispatch (s : State) (ev : Event) : State :=
  match ev with
  | KeyDown e => handleKeyDown s e
  | Tick => tick s
  | ClickText index =>
      if isActive s || negb ((0 <=? index) && (index <? Z.of_nat (List.length TEXTS)))
      then s
      else handleSelectText index s
  | Rerender => s
  end.

(** One event, followed by the effects of the render it causes. *)
Definition step (s : State) (o : Clock * Event) : State :=
  autoEnd (fst o) (dispatch s (snd o)).

Definition run (s : State) (trace : list (Clock * Event)) : State :=
  fold_left step trace s.

(** Events that belong to one session: everything but a passage click,
    which resets. *)
Definition withinSession (trace : list (Clock * Event)) : bool :=
  forallb (fun o => match snd o with ClickText _ => false | _ => true end)
          trace.

(** A plain key press, no modifier held. *)
Definition press (k : string) : Event := KeyDown (mkKey k false false false).

(** ** The earlier variant of the component

    The second source file is the same component before saved results were
    added: no [savedResults], no [isFinished], no auto-end effect, and a
    mismatch branch that does not move the cursor. *)

Module Part000.

Record State := mkState {
  currentTextIndex : Z;
  currentText : string;
  currentIndex : Z;
  stats : Stats;
  isActive : bool
}.

Definition setCurrentTextIndex (v : Z) (s : State) : State :=
  mkState v (currentText s) (currentIndex s) (stats s) (isActive s).

Definition setCurrentIndex (v : Z) (s : State) : State :=
  mkState (currentTextIndex s) (currentText s) v (stats s) (isActive s).

Definition setStats (f : Stats -> Stats) (s : State) : State :=
  mkState (currentTextIndex s) (currentText s) (currentIndex s)
          (f (stats s)) (isActive s).

Definition setIsActive (v : bool) (s : State) : State :=
  mkState (currentTextIndex s) (currentText s) (currentIndex s) (stats s) v.

Definition mountWith (passage : string) : State :=
  mkState 0 passage 0 zeroStats false.

Definition handleKeyDown (s : State) (e : KeyboardEvent) : State :=
  if JS.length (currentText s) <=? currentIndex s then s
  else
    let s1 := if negb (isActive s) then setIsActive true s else s in
    let targetChar := JS.at_index (currentText s) (currentIndex s) in
    if String.eqb (key e) "Backspace" then
      if 0 <? currentIndex s
      then setStats countBackspace (setCurrentIndex (currentIndex s - 1) s1)
      else s1
    else if ignoredKey e then s1
    else if JS.strict_eq (key e) targetChar then
      setStats countCorrect (setCurrentIndex (currentIndex s + 1) s1)
    else
      (* Wrong character *)
      setStats countError s1.

Definition tick (s : State) : State :=
  if isActive s && (0 <? currentIndex s)
  then setStats tickElapsed s
  else s.

Definition handleReset (s : State) : State :=
  setIsActive false (setStats (fun _ => zeroStats) (setCurrentIndex 0 s)).

Definition handleSelectText (index : Z) (s : State) : State :=
  handleReset (setCurrentTextIndex index s).

End Part000.

(** The cells the two variants have in common. *)
Definition forget (s : State) : Part000.State :=
  Part000.mkState (currentTextIndex s) (currentText s) (currentIndex s)
                  (stats s) (isActive s).

(** The key is typed text that differs from the character under the cursor
    of an unfinished passage. *)
Definition mismatched (s : State) (e : KeyboardEvent) : bool :=
  (currentIndex s <? JS.length (currentText s))
  && negb (String.eqb (key e) "Backspace")
  && negb (ignoredKey e)
  && negb (JS.strict_eq (key e) (JS.at_index (currentText s) (currentIndex s))).

(** ** The statistics in exact arithmetic *)

(** The percentage of correct keys among correct and wrong ones over the
    integers, halves rounded up; 100 when nothing was typed. *)
Definition accuracy_exact (correctCount errorCount : Z) : Z :=
  if correctCount + errorCount =? 0 then 100
  else (200 * correctCount + (correctCount + errorCount))
       / (2 * (correctCount + errorCount)).

(** The exact percentage lies exactly halfway between two integers. *)
Definition halfway (correctCount errorCount : Z) : bool :=
  (200 * correctCount) mod (2 * (correctCount + errorCount))
  =? correctCount + errorCount.

(** ** The fingering table ([utils/fingeringMap.ts])

    The labels are kept as the UTF-8 bytes of the source text; only their
    identity and their being non-empty matter.  The table is a plain object
    read with a key computed from one character of the passage; names
    inherited from [Object.prototype], all longer than one character, are
    outside the model. *)

Definition FINGERING_MAP : list (string * string) :=
  [ ("a", "左小指"); ("q", "左小指"); ("z", "左小指");
    ("s", "左无名指"); ("w", "左无名指"); ("x", "左无名指");
    ("d", "左中指"); ("e", "左中指"); ("c", "左中指");
    ("f", "左食指"); ("g", "左食指"); ("r", "左食指");
    ("t", "左食指"); ("v", "左食指"); ("b", "左食指");
    ("h", "右食指"); ("j", "右食指"); ("u", "右食指");
    ("y", "右食指"); ("n", "右食指"); ("m", "右食指");
    ("k", "右中指"); ("i", "右中指"); (",", "右中指");
    ("l", "右无名指"); ("o", "右无名指"); (".", "右无名指");
    ("p", "右小指");
    (" ", "任意拇指") ].

(** [table[k]] on own properties. *)
Fixpoint lookup (k : string) (table : list (string * string)) : option string :=
  match table with
  | [] => None
  | (k', v) :: rest => if String.eqb k k' then Some v else lookup k rest
  end.

Definition getFingerHint (char : string) : string :=
  let lowerChar := JS.toLowerCase char in
  match lookup lowerChar FINGERING_MAP with
  | Some hint => if JS.truthy hint then hint else "未定义"
  | None => "未定义"
  end.

(** The characters the table knows, by code: a letter of either case, the
    comma, the full stop or the space. *)
Definition hasFinger (a : ascii) : bool :=
  let n := N_of_ascii a in
  ((97 <=? n) && (n <=? 122) || (65 <=? n) && (n <=? 90)
   || (n =? 44) || (n =? 46) || (n =? 32))%N.

(** ** Values derived at each render *)

(** [nextTargetChar]; [None] stands for [null] and [undefined] alike. *)
Definition nextTargetChar (s : State) : option string :=
  if currentIndex s <? JS.length (currentText s)
  then JS.at_index (currentText s) (currentIndex s)
  else None.

Definition fingerHint (s : State) : string :=
  match nextTargetChar s with
  | Some c => if JS.truthy c then getFingerHint c else ""
  | None => ""
  end.

(** The hint panel is rendered under [fingerHint && ...]. *)
Definition hintShown (s : State) : bool := JS.truthy (fingerHint s).

Definition formatTime (seconds : Z) : string :=
  let mins := JS.Math_floor (JS.of_Z seconds / JS.of_Z 60)%float in
  let secs := JS.remainder seconds 60 in
  JS.padStart (JS.toString mins) 2 "0" ++ ":"
  ++ JS.padStart (JS.toString secs) 2 "0".

(** The class of the character at [index] in the text display. *)
Definition charClass (s : State) (index : Z) : string :=
  if index <? currentIndex s then "correct"
  else if index =? currentIndex s then "current"
  else "pending".

(** The two optional classes of the text display. *)
Definition completedClass (s : State) : bool :=
  isCompleted s && negb (isFinished s).

Definition finishedClass (s : State) : bool := isFinished s.

(** The passage line of a saved result:
    [result.text.substring(0, 50)] and an ellipsis for a longer text. *)
Definition resultTextShown (r : SavedResult.t) : string :=
  JS.substring0 (SavedResult.text r) 50
  ++ (if 50 <? JS.length (SavedResult.text r) then "..." else "").

(** ** Typing a text *)

(** One plain key press per character. *)
Definition typeText (clk : Clock) (t : string) : list (Clock * Event) :=
  map (fun c => (clk, press (String c EmptyString))) (list_ascii_of_string t).

(** ** Events of the earlier variant

    It has a Reset button, its passage buttons are never disabled and it has
    no effect besides the timer. *)

Module Part000Session.

Inductive Event :=
| KeyDown (e : KeyboardEvent)
| Tick
| ClickText (index : Z)
| ClickReset.

Definition dispatch (s : Part000.State) (ev : Event) : Part000.State :=
  match ev with
  | KeyDown e => Part000.handleKeyDown s e
  | Tick => Part000.tick s
  | ClickText index =>
      if (0 <=? index) && (index <? Z.of_nat (List.length TEXTS))
      then Part000.handleSelectText index s
      else s
  | ClickReset => Part000.handleReset s
  end.

Definition run (s : Part000.State) (trace : list Event) : Part000.State :=
  fold_left dispatch trace s.

End Part000Session.

(** ** Reference values in exact arithmetic *)

(** Words per minute, [12 * correct / elapsed], halves rounded up. *)
Definition wpm_exact (correctCount elapsedSeconds : Z) : Z :=
  (24 * correctCount + elapsedSeconds) / (2 * elapsedSeconds).

(** One decimal digit. *)
Definition digit (n : Z) : string :=
  String (ascii_of_N (48 + Z.to_N n)) EmptyString.

(** [MM:SS] from the integer quotient and remainder. *)
Definition clockFace (seconds : Z) : string :=
  digit (seconds / 60 / 10) ++ digit ((seconds / 60) mod 10) ++ ":"
  ++ digit (seconds mod 60 / 10) ++ digit ((seconds mod 60) mod 10).

(** Bounded checks, evaluated once. *)
Definition floorChecked (n : nat) : bool :=
  forallb (fun k =>
             JS.Math_floor (JS.of_Z (Z.of_nat k) / JS.of_Z 60)%float
             =? Z.of_nat k / 60)
          (seq 0 n).

Definition padChecked (n : nat) : bool :=
  forallb (fun k =>
             String.eqb (JS.padStart (JS.toString (Z.of_nat k)) 2 "0")
                        (digit (Z.of_nat k / 10) ++ digit (Z.of_nat k mod 10)))
          (seq 0 n).

Definition accuracyChecked (n : nat) : bool :=
  forallb (fun t =>
    forallb (fun c =>
      let a := accuracy (mkStats 0 (Z.of_nat c) 0 (Z.of_nat t - Z.of_nat c) 0) in
      let x := accuracy_exact (Z.of_nat c) (Z.of_nat t - Z.of_nat c) in
      (0 <=? a) && (a <=? 100) && (x - 1 <=? a) && (a <=? x)
      && ((40 <=? Z.of_nat t) || (a =? x))
      && (halfway (Z.of_nat c) (Z.of_nat t - Z.of_nat c) || (a =? x)))
      (seq 0 (S t)))
    (seq 0 n).

Definition wpmChecked (nc ne : nat) : bool :=
  forallb (fun e =>
    forallb (fun c =>
      let w := wpm (mkStats (Z.of_nat e) (Z.of_nat c) 0 0 0) in
      let x := wpm_exact (Z.of_nat c) (Z.of_nat e) in
      (0 <=? w) && (x - 1 <=? w) && (w <=? x))
      (seq 0 nc))
    (seq 1 ne).

(** ** Coherence of the flags *)

(** What every event preserves besides [wellFormed]: the total is the sum of
    correct and wrong keys, a finished session is inactive and at the end of
    its passage, a non-empty passage that has been typed to its end is
    finished, and no time has elapsed before a character was typed. *)
Definition coherent (s : State) : Prop :=
  totalChars (stats s) = correctChars (stats s) + errors (stats s)
  /\ (isFinished s = true ->
      isActive s = false /\ JS.length (currentText s) <= currentIndex s)
  /\ (JS.length (currentText s) <= currentIndex s ->
      0 < JS.length (currentText s) -> isFinished s = true)
  /\ (0 < elapsed (stats s) -> 0 < totalChars (stats s))
  /\ 0 <= elapsed (stats s).

(** The log of one session that started with an empty log: empty until the
    passage is finished, then the one summary of the final statistics. *)
Definition logOfSession (s : State) : Prop :=
  if isFinished s
  then exists i ts,
      savedResults s
      = [ SavedResult.mk i (currentText s) (elapsed (stats s)) (wpm (stats s))
            (accuracy (stats s)) (errors (stats s)) (backspaces (stats s)) ts ]
  else savedResults s = [].

(** ** Session invariant *)

(** What every event preserves: the cursor stays inside the passage and the
    counters account for every cursor movement. *)
Definition wellFormed (s : State) : Prop :=
  0 <= currentIndex s <= JS.length (currentText s)
  /\ correctChars (stats s) + errors (stats s)
     = currentIndex s + backspaces (stats s)
  /\ 0 <= errors (stats s)
  /\ 0 <= backspaces (stats s).

(** * Properties *)

Ltac bool_to_Z :=
  repeat match goal with
  | H : (_ <=? _) = true |- _ => apply Z.leb_le in H
  | H : (_ <=? _) = false |- _ => apply Z.leb_gt in H
  | H : (_ <? _) = true |- _ => apply Z.ltb_lt in H
  | H : (_ <? _) = false |- _ => apply Z.ltb_ge in H
  | H : (_ =? _) = true |- _ => apply Z.eqb_eq in H
  | H : (_ =? _) = false |- _ => apply Z.eqb_neq in H
  end.

Ltac case_if :=
  match goal with
  | |- context [if ?b then _ else _] => destruct b eqn:?
  end.

(** ** Frame facts about the single operations *)

Lemma JS_length_nonneg (s : string) : 0 <= JS.length s.
Proof. unfold JS.length. lia. Qed.

Lemma setIsActive_true_id (s : State) :
  isActive s = true -> setIsActive true s = s.
Proof. destruct s; simpl; intros ->; reflexivity. Qed.

Lemma activate_eq (s : State) :
  (if negb (isActive s) then setIsActive true s else s) = setIsActive true s.
Proof.
  destruct (isActive s) eqn:E; simpl; [|reflexivity].
  symmetry. now apply setIsActive_true_id.
Qed.

(** The auto-end effect touches only [savedResults], [isFinished] and
    [isActive]. *)
Lemma autoEnd_frame (clk : Clock) (s : State) :
  currentTextIndex (autoEnd clk s) = currentTextIndex s
  /\ currentText (autoEnd clk s) = currentText s
  /\ currentIndex (autoEnd clk s) = currentIndex s
  /\ stats (autoEnd clk s) = stats s.
Proof. unfold autoEnd. repeat case_if; simpl; auto. Qed.

(** When the effect does not fire it returns the state it was given; when it
    fires it prepends one summary and closes the session. *)
Lemma autoEnd_cases (clk : Clock) (s : State) :
  autoEnd clk s = s
  \/ (isFinished s = false
      /\ isFinished (autoEnd clk s) = true
      /\ isActive (autoEnd clk s) = false
      /\ exists r, savedResults (autoEnd clk s) = r :: savedResults s).
Proof.
  unfold autoEnd. repeat case_if; auto. right.
  apply andb_prop in Heqb as [_ Hf]. apply negb_true_iff in Hf.
  simpl. repeat split; eauto.
Qed.

Lemma autoEnd_finished (clk : Clock) (s : State) :
  isFinished s = true -> autoEnd clk s = s.
Proof.
  intros H. unfold autoEnd. rewrite H. simpl.
  rewrite andb_false_r. reflexivity.
Qed.

Lemma autoEnd_inactive (clk : Clock) (s : State) :
  isActive s = false -> autoEnd clk s = s.
Proof.
  intros H. unfold autoEnd. rewrite H.
  rewrite andb_false_r. reflexivity.
Qed.

Lemma autoEnd_unfinished_text (clk : Clock) (s : State) :
  currentIndex s < JS.length (currentText s) -> autoEnd clk s = s.
Proof.
  intros H. unfold autoEnd.
  apply Z.leb_gt in H. rewrite H. reflexivity.
Qed.

(** Re-running the effect on its own result changes nothing, whatever the
    clock says by then. *)
Lemma autoEnd_idempotent (clk clk' : Clock) (s : State) :
  autoEnd clk' (autoEnd clk s) = autoEnd clk s.
Proof.
  destruct (autoEnd_cases clk s) as [E | (_ & _ & Ha & _)].
  - rewrite E. unfold autoEnd in *.
    repeat case_if; try reflexivity.
    apply (f_equal isFinished) in E. simpl in E.
    rewrite <- E in Heqb. simpl in Heqb.
    rewrite andb_false_r in Heqb. discriminate Heqb.
  - now apply autoEnd_inactive.
Qed.

(** The key handler never touches the passage, the result log or the
    [isFinished] flag. *)
Lemma handleKeyDown_frame (s : State) (e : KeyboardEvent) :
  currentTextIndex (handleKeyDown s e) = currentTextIndex s
  /\ currentText (handleKeyDown s e) = currentText s
  /\ savedResults (handleKeyDown s e) = savedResults s
  /\ isFinished (handleKeyDown s e) = isFinished s.
Proof. unfold handleKeyDown. repeat case_if; simpl; auto. Qed.

Lemma tick_frame (s : State) :
  currentText (tick s) = currentText s
  /\ currentIndex (tick s) = currentIndex s
  /\ savedResults (tick s) = savedResults s
  /\ isFinished (tick s) = isFinished s
  /\ isActive (tick s) = isActive s.
Proof. unfold tick. case_if; simpl; auto. Qed.

Lemma dispatch_currentText (s : State) (ev : Event) :
  currentText (dispatch s ev) = currentText s.
Proof.
  destruct ev; simpl.
  - apply handleKeyDown_frame.
  - apply tick_frame.
  - case_if; reflexivity.
  - reflexivity.
Qed.

Lemma step_currentText (s : State) (o : Clock * Event) :
  currentText (step s o) = currentText s.
Proof.
  unfold step.
  destruct (autoEnd_frame (fst o) (dispatch s (snd o))) as (_ & -> & _).
  apply dispatch_currentText.
Qed.

Lemma run_cons (s : State) (o : Clock * Event) (trace : list (Clock * Event)) :
  run s (o :: trace) = run (step s o) trace.
Proof. reflexivity. Qed.

Lemma run_currentText (trace : list (Clock * Event)) (s : State) :
  currentText (run s trace) = currentText s.
Proof.
  revert s. induction trace as [|o trace IH]; intros s.
  - reflexivity.
  - rewrite run_cons, IH. apply step_currentText.
Qed.

(** ** Preservation of the session invariant *)

Lemma mountWith_wellFormed (passage : string) : wellFormed (mountWith passage).
Proof.
  unfold wellFormed; simpl. pose proof (JS_length_nonneg passage). lia.
Qed.

Lemma handleKeyDown_wellFormed (s : State) (e : KeyboardEvent) :
  wellFormed s -> wellFormed (handleKeyDown s e).
Proof.
  unfold wellFormed, handleKeyDown. intros (Hc & Hsum & He & Hb).
  rewrite activate_eq.
  repeat case_if; simpl; bool_to_Z; repeat split; lia.
Qed.

Lemma tick_wellFormed (s : State) : wellFormed s -> wellFormed (tick s).
Proof.
  unfold wellFormed, tick. intros H. case_if; simpl; auto.
Qed.

Lemma handleSelectText_wellFormed (index : Z) (s : State) :
  wellFormed (handleSelectText index s).
Proof.
  unfold wellFormed; simpl. pose proof (JS_length_nonneg (currentText s)). lia.
Qed.

Lemma dispatch_wellFormed (s : State) (ev : Event) :
  wellFormed s -> wellFormed (dispatch s ev).
Proof.
  intros H. destruct ev; simpl.
  - now apply handleKeyDown_wellFormed.
  - now apply tick_wellFormed.
  - case_if; [assumption | apply handleSelectText_wellFormed].
  - assumption.
Qed.

Lemma step_wellFormed (s : State) (o : Clock * Event) :
  wellFormed s -> wellFormed (step s o).
Proof.
  intros H. apply (dispatch_wellFormed _ (snd o)) in H.
  unfold step, wellFormed in *.
  destruct (autoEnd_frame (fst o) (dispatch s (snd o)))
    as (_ & -> & -> & ->).
  exact H.
Qed.

Lemma run_wellFormed (trace : list (Clock * Event)) (s : State) :
  wellFormed s -> wellFormed (run s trace).
Proof.
  revert s. induction trace as [|o trace IH]; intros s H.
  - exact H.
  - rewrite run_cons. apply IH. now apply step_wellFormed.
Qed.

(** ** Cursor bounds *)

(** C7.  In every state reached from a fresh session on any passage by any
    sequence of events (key presses, timer ticks, passage clicks, renders),
    the session is still on that passage and the cursor lies between 0 and
    the length of the passage. *)
Theorem cursor_within_passage (passage : string) (trace : list (Clock * Event)) :
  currentText (run (mountWith passage) trace) = passage
  /\ 0 <= currentIndex (run (mountWith passage) trace) <= JS.length passage.
Proof.
  pose proof (run_currentText trace (mountWith passage)) as Ht.
  pose proof (run_wellFormed trace _ (mountWith_wellFormed passage)) as (Hc & _).
  simpl in Ht. split; [exact Ht|]. rewrite Ht in Hc. exact Hc.
Qed.

(** ** Correct count against the cursor *)

(** C2, as stated, fails: on the passage [ab], a correct [a] followed by
    Backspace leaves one correct character counted and the cursor at 0. *)
Lemma correct_exceeds_cursor_after_backspace :
  let s := run (mountWith "ab")
               [ (mkClock 0 "", press "a"); (mkClock 0 "", press "Backspace") ] in
  correctChars (stats s) = 1
  /\ currentIndex s = 0
  /\ ~ correctChars (stats s) <= currentIndex s.
Proof.
  repeat split; try reflexivity.
  vm_compute. intros H. apply H. reflexivity.
Qed.

(** C2, amended.  In every state reached from a fresh session, the correct
    count is at most the cursor plus the number of counted Backspaces; in
    fact correct and wrong keys together account exactly for the cursor
    position and the Backspaces taken. *)
Theorem correct_bounded_by_cursor_and_backspaces
    (passage : string) (trace : list (Clock * Event)) :
  let s := run (mountWith passage) trace in
  correctChars (stats s) <= currentIndex s + backspaces (stats s)
  /\ correctChars (stats s) + errors (stats s)
     = currentIndex s + backspaces (stats s).
Proof.
  pose proof (run_wellFormed trace _ (mountWith_wellFormed passage))
    as (_ & Hsum & He & _).
  simpl. lia.
Qed.

(** ** Ignored keys *)

(** C3, as stated, fails twice on the passage [ab].  A lone Shift on a fresh
    session is not a single character, yet it switches [isActive] on; and
    Backspace, also not a single character, moves the cursor back even with
    Ctrl held. *)
Lemma ignored_key_changes_state :
  let fresh := mountWith "ab" in
  let shift := mkKey "Shift" false false false in
  let typed := run fresh [ (mkClock 0 "", press "a") ] in
  let ctrlBackspace := mkKey "Backspace" true false false in
  (currentIndex fresh < JS.length (currentText fresh)
   /\ ignoredKey shift = true
   /\ isActive fresh = false
   /\ isActive (step fresh (mkClock 0 "", KeyDown shift)) = true)
  /\ (currentIndex typed < JS.length (currentText typed)
      /\ ignoredKey ctrlBackspace = true
      /\ currentIndex typed = 1
      /\ currentIndex (step typed (mkClock 0 "", KeyDown ctrlBackspace)) = 0
      /\ backspaces (stats typed) = 0
      /\ backspaces (stats (step typed (mkClock 0 "", KeyDown ctrlBackspace))) = 1).
Proof. vm_compute. repeat split; reflexivity. Qed.

(** C3, amended.  While the passage is unfinished, a key other than
    Backspace that carries ctrl, meta or alt, or whose identifier is longer
    than one character, leaves cursor, counters, elapsed time, the finished
    flag and the result log as they were; the only cell written is
    [isActive], which is set to true.  On a session that is already active
    the state is unchanged altogether. *)
Theorem ignored_key_only_activates
    (s : State) (e : KeyboardEvent) (clk : Clock)
    (Hcursor : currentIndex s < JS.length (currentText s))
    (Hkey : String.eqb (key e) "Backspace" = false)
    (Hign : ignoredKey e = true) :
  handleKeyDown s e = setIsActive true s
  /\ step s (clk, KeyDown e) = setIsActive true s
  /\ (isActive s = true -> step s (clk, KeyDown e) = s).
Proof.
  assert (Hh : handleKeyDown s e = setIsActive true s).
  { unfold handleKeyDown. apply Z.leb_gt in Hcursor.
    rewrite Hcursor, Hkey, Hign. apply activate_eq. }
  assert (Hs : step s (clk, KeyDown e) = setIsActive true s).
  { unfold step; simpl. rewrite Hh. now apply autoEnd_unfinished_text. }
  repeat split; auto.
  intros Ha. rewrite Hs. now apply setIsActive_true_id.
Qed.

Lemma ignored_key_only_activates_witness :
  let s := mountWith "ab" in
  let e := mkKey "c" true false false in
  let clk := mkClock 0 "" in
  currentIndex s < JS.length (currentText s)
  /\ String.eqb (key e) "Backspace" = false
  /\ ignoredKey e = true
  /\ handleKeyDown s e = setIsActive true s
  /\ step s (clk, KeyDown e) = setIsActive true s.
Proof.
  assert (H1 : currentIndex (mountWith "ab") < JS.length (currentText (mountWith "ab")))
    by (vm_compute; reflexivity).
  assert (H2 : String.eqb (key (mkKey "c" true false false)) "Backspace" = false)
    by reflexivity.
  assert (H3 : ignoredKey (mkKey "c" true false false) = true) by reflexivity.
  pose proof (ignored_key_only_activates (mountWith "ab")
                (mkKey "c" true false false) (mkClock 0 "") H1 H2 H3)
    as (Ha & Hb & _).
  repeat split; assumption.
Defined.

(** ** Backspace at the start *)

(** C9.  A Backspace arriving with the cursor at 0 leaves the cursor at 0 and
    the statistics (correct, wrong, Backspace and total counts, elapsed time)
    untouched, both straight after the handler and after the effects of the
    render that follows. *)
Theorem backspace_at_start_is_noop
    (s : State) (e : KeyboardEvent) (clk : Clock)
    (Hcursor : currentIndex s = 0)
    (Hkey : String.eqb (key e) "Backspace" = true) :
  currentIndex (handleKeyDown s e) = 0
  /\ stats (handleKeyDown s e) = stats s
  /\ currentIndex (step s (clk, KeyDown e)) = 0
  /\ stats (step s (clk, KeyDown e)) = stats s.
Proof.
  assert (H : currentIndex (handleKeyDown s e) = 0
              /\ stats (handleKeyDown s e) = stats s).
  { unfold handleKeyDown. rewrite Hkey, Hcursor, activate_eq. simpl.
    case_if; simpl; auto. }
  destruct H as (Hi & Hst). repeat split; auto.
  - unfold step; simpl.
    destruct (autoEnd_frame clk (handleKeyDown s e)) as (_ & _ & -> & _).
    exact Hi.
  - unfold step; simpl.
    destruct (autoEnd_frame clk (handleKeyDown s e)) as (_ & _ & _ & ->).
    exact Hst.
Qed.

Lemma backspace_at_start_is_noop_witness :
  let s := mountWith "ab" in
  let e := mkKey "Backspace" false false false in
  let clk := mkClock 0 "" in
  currentIndex s = 0
  /\ String.eqb (key e) "Backspace" = true
  /\ currentIndex (step s (clk, KeyDown e)) = 0
  /\ stats (step s (clk, KeyDown e)) = stats s.
Proof.
  assert (H1 : currentIndex (mountWith "ab") = 0) by reflexivity.
  assert (H2 : String.eqb (key (mkKey "Backspace" false false false)) "Backspace"
               = true) by reflexivity.
  pose proof (backspace_at_start_is_noop (mountWith "ab")
                (mkKey "Backspace" false false false) (mkClock 0 "") H1 H2)
    as (_ & _ & Ha & Hb).
  repeat split; assumption.
Defined.

(** ** Reset *)

(** C10.  [handleReset] keeps the result log exactly as it was and clears the
    cursor, every counter and both flags; the effects of the render that
    follows append nothing either. *)
Theorem handleReset_keeps_log (s : State) (clk : Clock) :
  savedResults (handleReset s) = savedResults s
  /\ currentIndex (handleReset s) = 0
  /\ stats (handleReset s) = mkStats 0 0 0 0 0
  /\ isActive (handleReset s) = false
  /\ isFinished (handleReset s) = false
  /\ autoEnd clk (handleReset s) = handleReset s.
Proof.
  repeat split. now apply autoEnd_inactive.
Qed.

(** ** At most one summary per session *)

Lemma dispatch_session_frame (s : State) (ev : Event) :
  (match ev with ClickText _ => false | _ => true end) = true ->
  savedResults (dispatch s ev) = savedResults s
  /\ isFinished (dispatch s ev) = isFinished s.
Proof.
  destruct ev; simpl; intros H; try discriminate H.
  - split; apply handleKeyDown_frame.
  - split; apply tick_frame.
  - auto.
Qed.

(** Once [isFinished] holds, an event of the session leaves the log alone. *)
Lemma step_after_finished (s : State) (o : Clock * Event) :
  (match snd o with ClickText _ => false | _ => true end) = true ->
  isFinished s = true ->
  savedResults (step s o) = savedResults s /\ isFinished (step s o) = true.
Proof.
  intros Hev Hf.
  destruct (dispatch_session_frame s (snd o) Hev) as (Hl & Hfin).
  unfold step. rewrite autoEnd_finished by congruence.
  split; congruence.
Qed.

(** One event of the session appends nothing, or appends one summary and
    sets [isFinished]. *)
Lemma step_appends_at_most_one (s : State) (o : Clock * Event) :
  (match snd o with ClickText _ => false | _ => true end) = true ->
  savedResults (step s o) = savedResults s
  \/ (isFinished (step s o) = true
      /\ exists r, savedResults (step s o) = r :: savedResults s).
Proof.
  intros Hev.
  destruct (dispatch_session_frame s (snd o) Hev) as (Hl & _).
  unfold step.
  destruct (autoEnd_cases (fst o) (dispatch s (snd o)))
    as [E | (_ & Hf & _ & r & Hr)].
  - left. rewrite E. exact Hl.
  - right. split; [exact Hf|]. exists r. rewrite Hr, Hl. reflexivity.
Qed.

Lemma run_after_finished (trace : list (Clock * Event)) (s : State) :
  withinSession trace = true ->
  isFinished s = true ->
  savedResults (run s trace) = savedResults s
  /\ isFinished (run s trace) = true.
Proof.
  revert s. induction trace as [|o trace IH]; intros s Hw Hf.
  - split; [reflexivity | exact Hf].
  - simpl in Hw. apply andb_prop in Hw as (Ho & Hw).
    destruct (step_after_finished s o Ho Hf) as (Hl & Hf').
    rewrite run_cons.
    destruct (IH (step s o) Hw Hf') as (Hl' & Hf'').
    split; congruence.
Qed.

(** C4.  Over any sequence of key presses, timer ticks and renders (no
    passage click, which resets): the log at the end is the log at the start
    with at most one summary put in front; and from a state where
    [isFinished] already holds the log does not change at all and
    [isFinished] stays set.  Re-evaluating the completion effect on its own
    result appends nothing. *)
Theorem summary_logged_at_most_once
    (s : State) (trace : list (Clock * Event))
    (Hsession : withinSession trace = true) :
  (savedResults (run s trace) = savedResults s
   \/ exists r, savedResults (run s trace) = r :: savedResults s)
  /\ (isFinished s = true ->
      savedResults (run s trace) = savedResults s
      /\ isFinished (run s trace) = true)
  /\ (forall clk clk', autoEnd clk' (autoEnd clk s) = autoEnd clk s).
Proof.
  split; [| split].
  - revert s Hsession. induction trace as [|o trace IH]; intros s Hw.
    + left; reflexivity.
    + simpl in Hw. apply andb_prop in Hw as (Ho & Hw).
      rewrite run_cons.
      destruct (step_appends_at_most_one s o Ho) as [E | (Hf & r & Hr)].
      * rewrite <- E. apply IH, Hw.
      * right. exists r.
        destruct (run_after_finished trace (step s o) Hw Hf) as (-> & _).
        exact Hr.
  - intros Hf. now apply run_after_finished.
  - intros clk clk'. apply autoEnd_idempotent.
Qed.

Lemma summary_logged_at_most_once_witness :
  let clk := mkClock 1700000000000 "11/14/2023, 10:13:20 PM" in
  let trace := [ (clk, press "x"); (clk, press "b"); (clk, press "b");
                 (clk, Tick); (clk, Rerender); (clk, press "Backspace") ] in
  withinSession trace = true
  /\ List.length (savedResults (run (mountWith "ab") trace)) = 1%nat
  /\ (savedResults (run (mountWith "ab") trace) = savedResults (mountWith "ab")
      \/ exists r, savedResults (run (mountWith "ab") trace)
                   = r :: savedResults (mountWith "ab")).
Proof.
  set (clk := mkClock 1700000000000 "11/14/2023, 10:13:20 PM").
  set (trace := [ (clk, press "x"); (clk, press "b"); (clk, press "b");
                  (clk, Tick); (clk, Rerender); (clk, press "Backspace") ]).
  assert (Hw : withinSession trace = true) by reflexivity.
  split; [exact Hw | split].
  - vm_compute. reflexivity.
  - exact (proj1 (summary_logged_at_most_once (mountWith "ab") trace Hw)).
Defined.

(** ** Wrong keys *)

(** A wrong key counts one error and one typed character, moves the cursor
    one place on and leaves the correct and Backspace counts alone. *)
Lemma handleKeyDown_mismatch (s : State) (e : KeyboardEvent) :
  mismatched s e = true ->
  handleKeyDown s e
  = setCurrentIndex (currentIndex s + 1)
      (setStats countError (setIsActive true s)).
Proof.
  unfold mismatched, handleKeyDown. intros H.
  apply andb_prop in H as (H & Hne). apply andb_prop in H as (H & Hig).
  apply andb_prop in H as (Hlt & Hbs).
  apply negb_true_iff in Hne, Hig, Hbs. apply Z.ltb_lt in Hlt.
  apply Z.leb_gt in Hlt. rewrite Hlt, Hbs, Hig, Hne, activate_eq.
  reflexivity.
Qed.

(** C5.  On the passage [ab], the keys [x] then [b] give cursor 2, one
    correct and one wrong character, accuracy 50 and a completed passage;
    after the [x] alone the cursor is already at 1 with one error.  In
    general a wrong printable key adds one to the error count and one to the
    cursor. *)
Theorem forgiving_scenario_ab (clk1 clk2 : Clock) :
  (let s1 := run (mountWith "ab") [ (clk1, press "x") ] in
   let s2 := run (mountWith "ab") [ (clk1, press "x"); (clk2, press "b") ] in
   (currentIndex s1 = 1 /\ errors (stats s1) = 1 /\ correctChars (stats s1) = 0)
   /\ currentIndex s2 = 2
   /\ correctChars (stats s2) = 1
   /\ errors (stats s2) = 1
   /\ accuracy (stats s2) = 50
   /\ isCompleted s2 = true)
  /\ (forall (s : State) (e : KeyboardEvent),
        mismatched s e = true ->
        currentIndex (handleKeyDown s e) = currentIndex s + 1
        /\ errors (stats (handleKeyDown s e)) = errors (stats s) + 1
        /\ correctChars (stats (handleKeyDown s e)) = correctChars (stats s)).
Proof.
  split.
  - vm_compute. repeat split; reflexivity.
  - intros s e H. rewrite (handleKeyDown_mismatch s e H). simpl. auto.
Qed.

Lemma forgiving_scenario_ab_witness :
  let s := mountWith "ab" in
  let e := mkKey "x" false false false in
  mismatched s e = true
  /\ currentIndex (handleKeyDown s e) = currentIndex s + 1
  /\ errors (stats (handleKeyDown s e)) = errors (stats s) + 1.
Proof.
  assert (H : mismatched (mountWith "ab") (mkKey "x" false false false) = true)
    by reflexivity.
  destruct (proj2 (forgiving_scenario_ab (mkClock 0 "") (mkClock 0 ""))
                  (mountWith "ab") (mkKey "x" false false false) H)
    as (Ha & Hb & _).
  repeat split; assumption.
Defined.

(** ** The two variants of the key handler *)

Lemma Part000_handleKeyDown_mismatch (s : State) (e : KeyboardEvent) :
  mismatched s e = true ->
  Part000.handleKeyDown (forget s) e
  = Part000.setStats countError (Part000.setIsActive true (forget s)).
Proof.
  unfold mismatched, Part000.handleKeyDown. intros H.
  apply andb_prop in H as (H & Hne). apply andb_prop in H as (H & Hig).
  apply andb_prop in H as (Hlt & Hbs).
  apply negb_true_iff in Hne, Hig, Hbs. apply Z.ltb_lt in Hlt.
  apply Z.leb_gt in Hlt. simpl. rewrite Hlt, Hbs, Hig, Hne.
  destruct s as [ti txt idx st act log fin]; simpl.
  destruct act; reflexivity.
Qed.

(** C6.  There is a state and a printable key on which the two variants of
    [handleKeyDown] leave different cursors.  On every wrong printable key
    the shipped handler moves the cursor one place on while the earlier one
    leaves it where it was, the statistics and [isActive] being the same in
    both.  On every other key event (a matching key, Backspace, an ignored
    key, a key after the end of the passage) the two handlers agree on all
    the cells they share. *)
Theorem variants_differ_only_on_mismatch :
  (exists (s : State) (e : KeyboardEvent),
      mismatched s e = true
      /\ currentIndex (handleKeyDown s e)
         <> Part000.currentIndex (Part000.handleKeyDown (forget s) e))
  /\ (forall (s : State) (e : KeyboardEvent),
        mismatched s e = true ->
        currentIndex (handleKeyDown s e) = currentIndex s + 1
        /\ Part000.currentIndex (Part000.handleKeyDown (forget s) e)
           = currentIndex s
        /\ stats (handleKeyDown s e)
           = Part000.stats (Part000.handleKeyDown (forget s) e)
        /\ isActive (handleKeyDown s e)
           = Part000.isActive (Part000.handleKeyDown (forget s) e))
  /\ (forall (s : State) (e : KeyboardEvent),
        mismatched s e = false ->
        forget (handleKeyDown s e) = Part000.handleKeyDown (forget s) e).
Proof.
  split; [| split].
  - exists (mountWith "ab"), (mkKey "x" false false false).
    split; [reflexivity | vm_compute; discriminate].
  - intros s e H.
    rewrite (handleKeyDown_mismatch s e H),
            (Part000_handleKeyDown_mismatch s e H).
    simpl. auto.
  - intros s e H. unfold mismatched in H.
    rewrite Z.ltb_antisym in H.
    unfold handleKeyDown, Part000.handleKeyDown.
    destruct s as [ti txt idx st act log fin]; simpl in *.
    destruct (JS.length txt <=? idx); simpl in *; [reflexivity|].
    destruct (String.eqb (key e) "Backspace"); simpl in *.
    + destruct act, (0 <? idx); reflexivity.
    + destruct (ignoredKey e); simpl in *.
      * destruct act; reflexivity.
      * destruct (JS.strict_eq (key e) (JS.at_index txt idx)); simpl in *;
          [| discriminate H].
        destruct act; reflexivity.
Qed.

Lemma variants_differ_only_on_mismatch_witness :
  let typed := run (mountWith "ab") [ (mkClock 0 "", press "a") ] in
  let wrong := mkKey "x" false false false in
  let back := mkKey "Backspace" false false false in
  (mismatched typed wrong = true
   /\ currentIndex (handleKeyDown typed wrong) = currentIndex typed + 1
   /\ Part000.currentIndex (Part000.handleKeyDown (forget typed) wrong)
      = currentIndex typed)
  /\ (mismatched typed back = false
      /\ forget (handleKeyDown typed back)
         = Part000.handleKeyDown (forget typed) back).
Proof.
  set (typed := run (mountWith "ab") [ (mkClock 0 "", press "a") ]).
  assert (H1 : mismatched typed (mkKey "x" false false false) = true)
    by reflexivity.
  assert (H2 : mismatched typed (mkKey "Backspace" false false false) = false)
    by reflexivity.
  destruct variants_differ_only_on_mismatch as (_ & Hm & Ho).
  destruct (Hm typed _ H1) as (Ha & Hb & _).
  pose proof (Ho typed _ H2) as Hc.
  repeat split; assumption.
Defined.

(** ** Accuracy *)

Lemma accuracyChecked_facts (n : nat) (c e : Z) :
  accuracyChecked n = true ->
  0 <= c -> 0 <= e -> c + e < Z.of_nat n ->
  let a := accuracy (mkStats 0 c 0 e 0) in
  (0 <= a <= 100 /\ accuracy_exact c e - 1 <= a <= accuracy_exact c e)
  /\ (c + e < 40 -> a = accuracy_exact c e)
  /\ (halfway c e = false -> a = accuracy_exact c e).
Proof.
  unfold accuracyChecked. intros H Hc He Hn.
  rewrite forallb_forall in H.
  specialize (H (Z.to_nat (c + e))).
  rewrite forallb_forall in H.
  assert (H1 : In (Z.to_nat (c + e)) (seq 0 n)) by (apply in_seq; lia).
  assert (H2 : In (Z.to_nat c) (seq 0 (S (Z.to_nat (c + e)))))
    by (apply in_seq; lia).
  specialize (H H1 (Z.to_nat c) H2). cbv zeta in H.
  rewrite !Z2Nat.id in H by lia.
  replace (c + e - c) with e in H by lia.
  apply andb_prop in H as (H & A6). apply andb_prop in H as (H & A5).
  apply andb_prop in H as (H & A4). apply andb_prop in H as (H & A3).
  apply andb_prop in H as (A1 & A2).
  cbv zeta. apply Z.leb_le in A1, A2, A3, A4.
  split; [lia | split].
  - intros Hlt. apply orb_prop in A5 as [A5 | A5].
    + apply Z.leb_le in A5. lia.
    + apply Z.eqb_eq in A5. exact A5.
  - intros Hh. rewrite Hh in A6. apply Z.eqb_eq in A6. exact A6.
Qed.

Lemma accuracyChecked_sound (n : nat) (c e : Z) :
  accuracyChecked n = true ->
  0 <= c -> 0 <= e -> c + e < Z.of_nat n ->
  let a := accuracy (mkStats 0 c 0 e 0) in
  0 <= a <= 100 /\ accuracy_exact c e - 1 <= a <= accuracy_exact c e.
Proof.
  intros H Hc He Hn. exact (proj1 (accuracyChecked_facts n c e H Hc He Hn)).
Qed.

Lemma accuracyChecked_200 : accuracyChecked (Z.to_nat 200) = true.
Proof. vm_compute. reflexivity. Qed.




(** ** Passage selection *)

Lemma handleSelectText_currentText (index : Z) (s : State) :
  currentText (handleSelectText index s) = currentText s.
Proof. reflexivity. Qed.

(** C1 does not hold of the code: [currentText] has no setter, so selecting
    a passage records the index and resets the session but the text that is
    compared and rendered stays the one of the first render.  After a click
    on the second passage the session is reset and [currentTextIndex] is 1,
    yet [currentText] is still [TEXTS[0]]: the first letter of [TEXTS[1]]
    is counted as an error and the first letter of [TEXTS[0]] as correct. *)
Theorem handleSelectText_keeps_first_passage (clk : Clock) :
  let s := step mount (clk, ClickText 1) in
  s = handleSelectText 1 mount
  /\ currentTextIndex s = 1
  /\ currentIndex s = 0
  /\ stats s = mkStats 0 0 0 0 0
  /\ isActive s = false
  /\ isFinished s = false
  /\ currentText s = nth 0 TEXTS ""
  /\ currentText s <> nth 1 TEXTS ""
  /\ errors (stats (handleKeyDown s (mkKey "P" false false false))) = 1
  /\ correctChars (stats (handleKeyDown s (mkKey "T" false false false))) = 1.
Proof.
  repeat split; try reflexivity.
  vm_compute. discriminate.
Qed.

(** * Further properties of the component *)

(** ** Finger hints *)

Ltac each_ascii a :=
  destruct a as [[] [] [] [] [] [] [] []].

(** X1.  The table answers exactly for the letters of either case, the comma,
    the full stop and the space; every other single character gets the
    label for an undefined key. *)
Theorem getFingerHint_defined_exactly_on_keys (a : ascii) :
  String.eqb (getFingerHint (String a EmptyString)) "未定义"
  = negb (hasFinger a).
Proof. each_ascii a; vm_compute; reflexivity. Qed.

Lemma getFingerHint_lowerUnit (a : ascii) :
  getFingerHint (String (JS.lowerUnit a) EmptyString)
  = getFingerHint (String a EmptyString).
Proof. each_ascii a; vm_compute; reflexivity. Qed.

(** X2.  A capital letter gets the hint of its small letter. *)
Theorem getFingerHint_ignores_case (a : ascii)
    (Hupper : (65 <=? N_of_ascii a)%N && (N_of_ascii a <=? 90)%N = true) :
  getFingerHint (String a EmptyString)
  = getFingerHint (String (ascii_of_N (N_of_ascii a + 32)) EmptyString).
Proof.
  rewrite <- (getFingerHint_lowerUnit a).
  unfold JS.lowerUnit. rewrite Hupper. reflexivity.
Qed.

Lemma getFingerHint_ignores_case_witness :
  (65 <=? N_of_ascii "T")%N && (N_of_ascii "T" <=? 90)%N = true
  /\ getFingerHint "T" = getFingerHint "t".
Proof.
  assert (H : (65 <=? N_of_ascii "T")%N && (N_of_ascii "T" <=? 90)%N = true)
    by reflexivity.
  split; [exact H | exact (getFingerHint_ignores_case "T"%char H)].
Defined.

Lemma getFingerHint_truthy (char : string) :
  JS.truthy (getFingerHint char) = true.
Proof.
  unfold getFingerHint.
  destruct (lookup (JS.toLowerCase char) FINGERING_MAP) as [hint|];
    [| reflexivity].
  destruct (JS.truthy hint) eqn:E; [exact E | reflexivity].
Qed.

Lemma get_in_range (t : string) (n : nat) :
  (n < String.length t)%nat -> exists a, String.get n t = Some a.
Proof.
  revert n. induction t as [|c t IH]; intros n H; simpl in H.
  - lia.
  - destruct n as [|n]; simpl; [eauto | apply IH; lia].
Qed.

Lemma at_index_in_range (t : string) (i : Z) :
  0 <= i < JS.length t ->
  exists a, JS.at_index t i = Some (String a EmptyString).
Proof.
  intros [H0 H1]. unfold JS.at_index, JS.length in *.
  destruct (i <? 0) eqn:E; [apply Z.ltb_lt in E; lia|].
  destruct (get_in_range t (Z.to_nat i)) as [a Ha]; [lia|].
  rewrite Ha. eauto.
Qed.

Lemma hintShown_wellFormed (s : State) :
  wellFormed s -> hintShown s = negb (isCompleted s).
Proof.
  intros ((H0 & H1) & _).
  unfold hintShown, fingerHint, nextTargetChar, isCompleted.
  rewrite Z.ltb_antisym.
  destruct (JS.length (currentText s) <=? currentIndex s) eqn:E; simpl;
    [reflexivity|].
  apply Z.leb_gt in E.
  destruct (at_index_in_range (currentText s) (currentIndex s)) as [a Ha];
    [lia|].
  rewrite Ha. simpl. apply getFingerHint_truthy.
Qed.

(** X3.  In every state reached from a fresh session the hint panel is rendered
    exactly while the passage is unfinished: every character under the
    cursor, also one without an entry in the table, yields a non-empty
    hint. *)
Theorem hint_shown_until_completed
    (passage : string) (trace : list (Clock * Event)) :
  hintShown (run (mountWith passage) trace)
  = negb (isCompleted (run (mountWith passage) trace)).
Proof.
  apply hintShown_wellFormed, run_wellFormed, mountWith_wellFormed.
Qed.

(** ** The clock face *)

Lemma string_app_assoc (a b c : string) : (a ++ b) ++ c = a ++ (b ++ c).
Proof. induction a as [|x a IH]; simpl; [reflexivity | now rewrite IH]. Qed.

Lemma floorChecked_sound (n : nat) (k : Z) :
  floorChecked n = true -> 0 <= k < Z.of_nat n ->
  JS.Math_floor (JS.of_Z k / JS.of_Z 60)%float = k / 60.
Proof.
  unfold floorChecked. intros H Hk.
  rewrite forallb_forall in H.
  specialize (H (Z.to_nat k)). rewrite Z2Nat.id in H by lia.
  apply Z.eqb_eq, H, in_seq. lia.
Qed.

Lemma padChecked_sound (n : nat) (k : Z) :
  padChecked n = true -> 0 <= k < Z.of_nat n ->
  JS.padStart (JS.toString k) 2 "0" = digit (k / 10) ++ digit (k mod 10).
Proof.
  unfold padChecked. intros H Hk.
  rewrite forallb_forall in H.
  specialize (H (Z.to_nat k)). rewrite Z2Nat.id in H by lia.
  apply String.eqb_eq, H, in_seq. lia.
Qed.

Lemma floorChecked_100_minutes : floorChecked (Z.to_nat 6000) = true.
Proof. vm_compute. reflexivity. Qed.

Lemma padChecked_two_digits : padChecked (Z.to_nat 100) = true.
Proof. vm_compute. reflexivity. Qed.

Lemma clockFace_length (seconds : Z) : JS.length (clockFace seconds) = 5.
Proof. reflexivity. Qed.

Lemma formatTime_clockFace (seconds : Z) :
  0 <= seconds < 6000 -> formatTime seconds = clockFace seconds.
Proof.
  intros H. unfold formatTime, clockFace, JS.remainder. cbv zeta.
  rewrite (floorChecked_sound (Z.to_nat 6000) seconds
             floorChecked_100_minutes)
    by (rewrite Z2Nat.id; lia).
  rewrite Z.rem_mod_nonneg by lia.
  rewrite (padChecked_sound (Z.to_nat 100) (seconds / 60)
             padChecked_two_digits)
    by (rewrite Z2Nat.id by lia; Z.div_mod_to_equations; lia).
  rewrite (padChecked_sound (Z.to_nat 100) (seconds mod 60)
             padChecked_two_digits)
    by (rewrite Z2Nat.id by lia; Z.div_mod_to_equations; lia).
  rewrite !string_app_assoc. reflexivity.
Qed.

(** X4.  Below 100 minutes [formatTime] prints two digits of minutes, a colon and
    two digits of seconds, the minutes and seconds being the integer
    quotient and remainder by 60; the result is five characters long. *)
Theorem formatTime_is_clock_face (seconds : Z)
    (Hrange : 0 <= seconds < 6000) :
  formatTime seconds = clockFace seconds
  /\ JS.length (formatTime seconds) = 5.
Proof.
  pose proof (formatTime_clockFace seconds Hrange) as H.
  split; [exact H|]. rewrite H. apply clockFace_length.
Qed.

Lemma formatTime_is_clock_face_witness :
  0 <= 65 < 6000 /\ formatTime 65 = "01:05".
Proof.
  assert (H : 0 <= 65 < 6000) by lia.
  split; [exact H|].
  rewrite (proj1 (formatTime_is_clock_face 65 H)). reflexivity.
Defined.

Lemma digit_inj (n m : Z) :
  0 <= n <= 9 -> 0 <= m <= 9 -> digit n = digit m -> n = m.
Proof.
  unfold digit. intros Hn Hm H.
  assert (E : N_of_ascii (ascii_of_N (48 + Z.to_N n))
              = N_of_ascii (ascii_of_N (48 + Z.to_N m))).
  { exact (f_equal (fun t => match t with
                             | String c _ => N_of_ascii c
                             | EmptyString => 0%N
                             end) H). }
  rewrite !N_ascii_embedding in E by lia. lia.
Qed.

Lemma digit_app_inj (x y : Z) (r r' : string) :
  0 <= x <= 9 -> 0 <= y <= 9 ->
  digit x ++ r = digit y ++ r' -> x = y /\ r = r'.
Proof.
  intros Hx Hy H.
  change (String (ascii_of_N (48 + Z.to_N x)) r
          = String (ascii_of_N (48 + Z.to_N y)) r') in H.
  split.
  - apply digit_inj; auto. unfold digit. f_equal.
    exact (f_equal (fun t => match t with
                             | String c _ => c
                             | EmptyString => Ascii.zero
                             end) H).
  - exact (f_equal (fun t => match t with
                             | String _ t' => t'
                             | EmptyString => EmptyString
                             end) H).
Qed.

Lemma clockFace_inj (a b : Z) :
  0 <= a < 6000 -> 0 <= b < 6000 -> clockFace a = clockFace b -> a = b.
Proof.
  unfold clockFace. intros Ha Hb H.
  apply digit_app_inj in H as (H1 & H);
    try (clear - Ha Hb; Z.div_mod_to_equations; lia).
  apply digit_app_inj in H as (H2 & H);
    try (clear - Ha Hb; Z.div_mod_to_equations; lia).
  assert (H' : digit (a mod 60 / 10) ++ digit ((a mod 60) mod 10)
               = digit (b mod 60 / 10) ++ digit ((b mod 60) mod 10)).
  { exact (f_equal (fun t => match t with
                             | String _ t' => t'
                             | EmptyString => EmptyString
                             end) H). }
  apply digit_app_inj in H' as (H3 & H4);
    try (clear - Ha Hb; Z.div_mod_to_equations; lia).
  apply digit_inj in H4;
    try (clear - Ha Hb; Z.div_mod_to_equations; lia).
  clear - Ha Hb H1 H2 H3 H4. Z.div_mod_to_equations. lia.
Qed.

(** X5.  Two different elapsed times below 100 minutes are never printed
    alike. *)
Theorem formatTime_distinguishes_times (a b : Z)
    (Ha : 0 <= a < 6000) (Hb : 0 <= b < 6000)
    (Hsame : formatTime a = formatTime b) :
  a = b.
Proof.
  rewrite (formatTime_clockFace a Ha), (formatTime_clockFace b Hb) in Hsame.
  now apply clockFace_inj.
Qed.

Lemma formatTime_distinguishes_times_witness :
  0 <= 125 < 6000 /\ formatTime 125 = formatTime (2 * 60 + 5)
  /\ 125 = 2 * 60 + 5.
Proof.
  assert (H : 0 <= 125 < 6000) by lia.
  assert (E : formatTime 125 = formatTime (2 * 60 + 5)) by reflexivity.
  split; [exact H | split; [exact E|]].
  exact (formatTime_distinguishes_times 125 (2 * 60 + 5) H H E).
Defined.

(** ** Coherence of the session flags *)

Lemma autoEnd_fired (clk : Clock) (s : State) :
  isFinished s = false -> isFinished (autoEnd clk s) = true ->
  JS.length (currentText s) <= currentIndex s
  /\ isActive s = true
  /\ autoEnd clk s
     = setIsActive false
         (setIsFinished true
            (setSavedResults
               (cons (SavedResult.mk
                        (JS.toString (now clk))
                        (JS.substring0 (currentText s) (currentIndex s))
                        (elapsed (stats s)) (wpm (stats s))
                        (accuracy (stats s)) (errors (stats s))
                        (backspaces (stats s)) (localeString clk)))
               s)).
Proof.
  intros Hf. unfold autoEnd.
  destruct (JS.length (currentText s) <=? currentIndex s) eqn:E1; simpl;
    [| congruence].
  destruct (isActive s) eqn:E2; simpl; [| congruence].
  rewrite Hf; simpl.
  destruct ((0 <? elapsed (stats s)) || (0 <? currentIndex s)); simpl;
    [| congruence].
  intros _. apply Z.leb_le in E1. auto.
Qed.

Lemma autoEnd_must_fire (clk : Clock) (s : State) :
  JS.length (currentText s) <= currentIndex s ->
  isActive s = true -> isFinished s = false -> 0 < currentIndex s ->
  isFinished (autoEnd clk s) = true.
Proof.
  intros H1 H2 H3 H4. unfold autoEnd.
  apply Z.leb_le in H1. apply Z.ltb_lt in H4.
  rewrite H1, H2, H3, H4, orb_true_r. reflexivity.
Qed.

(** The effect turns a state in which a completed passage may still be
    active into a coherent one. *)
Lemma autoEnd_settles (clk : Clock) (s : State) :
  wellFormed s ->
  totalChars (stats s) = correctChars (stats s) + errors (stats s) ->
  (isFinished s = true ->
   isActive s = false /\ JS.length (currentText s) <= currentIndex s) ->
  (JS.length (currentText s) <= currentIndex s ->
   0 < JS.length (currentText s) ->
   isFinished s = true \/ isActive s = true) ->
  (0 < elapsed (stats s) -> 0 < totalChars (stats s)) ->
  0 <= elapsed (stats s) ->
  coherent (autoEnd clk s).
Proof.
  intros ((Hi0 & Hi1) & _) Ht Hfin Hend Hel He0.
  destruct (isFinished s) eqn:Ef.
  - rewrite autoEnd_finished by exact Ef.
    unfold coherent. rewrite Ef. repeat split; auto; apply Hfin; reflexivity.
  - destruct (isFinished (autoEnd clk s)) eqn:Ef'.
    + destruct (autoEnd_fired clk s Ef Ef') as (Hlen & _ & ->).
      unfold coherent; simpl. repeat split; auto.
    + assert (E : autoEnd clk s = s).
      { destruct (autoEnd_cases clk s) as [E | (_ & Hc & _)];
          [exact E | congruence]. }
      unfold coherent. rewrite E, Ef. repeat split; auto; try discriminate.
      intros Hlen Hpos. exfalso.
      destruct (Hend Hlen Hpos) as [H | H]; [discriminate H|].
      rewrite (autoEnd_must_fire clk s Hlen H Ef) in Ef' by lia.
      discriminate Ef'.
Qed.

Lemma step_coherent (s : State) (o : Clock * Event) :
  wellFormed s -> coherent s -> coherent (step s o).
Proof.
  intros Hw (Ht & Hfin & Hend & Hel & He0).
  pose proof (dispatch_wellFormed s (snd o) Hw) as Hw'.
  pose proof Hw as ((Hi0 & Hi1) & Hsum & Herr & Hbs).
  unfold step. apply autoEnd_settles; try exact Hw';
    destruct (snd o) as [e | | index |]; simpl.
  (* the total *)
  - unfold handleKeyDown. rewrite activate_eq.
    repeat case_if; simpl; lia.
  - unfold tick. case_if; simpl; lia.
  - case_if; simpl; lia.
  - exact Ht.
  (* finished sessions *)
  - destruct (handleKeyDown_frame s e) as (_ & Htx & _ & Hf).
    rewrite Hf, Htx. intros F. destruct (Hfin F) as (Ha & Hl).
    unfold handleKeyDown. apply Z.leb_le in Hl. rewrite Hl.
    apply Z.leb_le in Hl. auto.
  - destruct (tick_frame s) as (Htx & Hix & _ & Hf & Ha).
    rewrite Hf, Htx, Hix, Ha. exact Hfin.
  - case_if; [exact Hfin | simpl; discriminate].
  - exact Hfin.
  (* completed passages *)
  - destruct (handleKeyDown_frame s e) as (_ & Htx & _ & Hf).
    rewrite Hf, Htx. intros Hl Hp.
    destruct (Z_lt_le_dec (currentIndex s) (JS.length (currentText s)))
      as [Hlt | Hge].
    + right. unfold handleKeyDown. apply Z.leb_gt in Hlt.
      rewrite Hlt, activate_eq. repeat case_if; reflexivity.
    + left. auto.
  - destruct (tick_frame s) as (Htx & Hix & _ & Hf & Ha).
    rewrite Hf, Htx, Hix. intros Hl Hp. left. auto.
  - case_if; simpl; [intros Hl Hp; left; auto | lia].
  - intros Hl Hp. left. auto.
  (* elapsed time *)
  - unfold handleKeyDown. rewrite activate_eq.
    repeat case_if; simpl; lia.
  - unfold tick. case_if; simpl; [| exact Hel].
    apply andb_prop in Heqb as (_ & Hpos). apply Z.ltb_lt in Hpos. lia.
  - case_if; simpl; [exact Hel | lia].
  - exact Hel.
  - unfold handleKeyDown. rewrite activate_eq.
    repeat case_if; simpl; lia.
  - unfold tick. case_if; simpl; lia.
  - case_if; simpl; lia.
  - exact He0.
Qed.

Lemma mountWith_coherent (passage : string) : coherent (mountWith passage).
Proof.
  unfold coherent; simpl. repeat split; try lia; try discriminate.
Qed.

Lemma run_coherent (trace : list (Clock * Event)) (s : State) :
  wellFormed s -> coherent s ->
  wellFormed (run s trace) /\ coherent (run s trace).
Proof.
  revert s. induction trace as [|o trace IH]; intros s Hw Hc.
  - split; assumption.
  - rewrite run_cons. apply IH.
    + now apply step_wellFormed.
    + now apply step_coherent.
Qed.

Lemma run_mount_invariants (passage : string) (trace : list (Clock * Event)) :
  wellFormed (run (mountWith passage) trace)
  /\ coherent (run (mountWith passage) trace).
Proof.
  apply run_coherent; [apply mountWith_wellFormed | apply mountWith_coherent].
Qed.

(** X6.  In every state reached from a fresh session, [totalChars] is the number
    of correct and wrong keys together, which is also the cursor position
    plus the Backspaces taken. *)
Theorem totalChars_counts_typed_keys
    (passage : string) (trace : list (Clock * Event)) :
  let s := run (mountWith passage) trace in
  totalChars (stats s) = correctChars (stats s) + errors (stats s)
  /\ totalChars (stats s) = currentIndex s + backspaces (stats s).
Proof.
  destruct (run_mount_invariants passage trace)
    as ((_ & Hsum & _) & (Ht & _)).
  simpl. lia.
Qed.

(** X7.  The clock does not start before the first character: in every state
    reached from a fresh session, either no time has elapsed or at least one
    character key has been counted. *)
Theorem no_time_before_first_character
    (passage : string) (trace : list (Clock * Event)) :
  let s := run (mountWith passage) trace in
  elapsed (stats s) = 0 \/ (0 < elapsed (stats s) /\ 0 < totalChars (stats s)).
Proof.
  destruct (run_mount_invariants passage trace)
    as (_ & (_ & _ & _ & Hel & He0)).
  simpl. lia.
Qed.

Lemma settled_finished_iff_completed (s : State) :
  coherent s -> 0 < JS.length (currentText s) ->
  isFinished s = isCompleted s.
Proof.
  intros (_ & Hfin & Hend & _) Hpos. unfold isCompleted.
  destruct (JS.length (currentText s) <=? currentIndex s) eqn:El.
  - apply Z.leb_le in El. now apply Hend.
  - apply Z.leb_gt in El. destruct (isFinished s); [| reflexivity].
    destruct (Hfin eq_refl). lia.
Qed.

(** After a handler and before the effect, a passage that is completed but
    not finished can only be one that the handler has just finished typing:
    the state before was not completed and the session is active. *)
Lemma dispatch_completed_unfinished (s : State) (ev : Event) :
  wellFormed s -> coherent s -> 0 < JS.length (currentText s) ->
  completedClass (dispatch s ev) = true ->
  isCompleted s = false
  /\ isActive (dispatch s ev) = true
  /\ isFinished (dispatch s ev) = false
  /\ JS.length (currentText (dispatch s ev)) <= currentIndex (dispatch s ev)
  /\ 0 < currentIndex (dispatch s ev).
Proof.
  intros Hw Hc Hpos Hcls.
  pose proof (settled_finished_iff_completed s Hc Hpos) as E.
  destruct Hc as (_ & Hfin & _).
  unfold completedClass, isCompleted in Hcls.
  apply andb_prop in Hcls as (Hl & Hnf).
  apply Z.leb_le in Hl. apply negb_true_iff in Hnf.
  pose proof (dispatch_currentText s ev) as Htx.
  rewrite Htx in *.
  assert (Hs : isCompleted s = false).
  { destruct (isCompleted s) eqn:Ec; [| reflexivity]. exfalso.
    destruct (Hfin E) as (Ha & Hle).
    destruct ev as [e | | index |]; simpl in *.
    - unfold handleKeyDown in Hnf. apply Z.leb_le in Hle.
      rewrite Hle in Hnf. congruence.
    - destruct (tick_frame s) as (_ & _ & _ & Hf & _). congruence.
    - revert Hl Hnf. case_if; simpl; intros; [congruence | lia].
    - congruence. }
  unfold isCompleted in Hs. apply Z.leb_gt in Hs.
  split; [apply Z.leb_gt; exact Hs |].
  split; [| split; [exact Hnf | split; [exact Hl | lia]]].
  destruct ev as [e | | index |]; simpl in *.
  - unfold handleKeyDown. apply Z.leb_gt in Hs.
    rewrite Hs, activate_eq. repeat case_if; reflexivity.
  - destruct (tick_frame s) as (_ & Hix & _). lia.
  - exfalso. revert Hl. case_if; simpl; lia.
  - lia.
Qed.

(** X8.  On a non-empty passage, in every state reached from a fresh session
    once the effects of the last event have run, the session is finished
    exactly when the cursor has reached the end of the passage, and a
    finished session is inactive.  The [completed] class of the text display
    (completed but not finished) is shown only in the render between the
    handler of the key that types the last character and the auto-end
    effect: if a handler leaves the passage completed and unfinished, the
    passage was not completed before it, and the effect that follows
    finishes the session and takes the class away. *)
Theorem completed_class_only_before_effect
    (passage : string) (trace : list (Clock * Event))
    (Hnonempty : 0 < JS.length passage) :
  let s := run (mountWith passage) trace in
  isFinished s = isCompleted s
  /\ completedClass s = false
  /\ (isFinished s = false \/ isActive s = false)
  /\ (forall (ev : Event) (clk : Clock),
        completedClass (dispatch s ev) = true ->
        isCompleted s = false
        /\ isFinished (step s (clk, ev)) = true
        /\ completedClass (step s (clk, ev)) = false).
Proof.
  destruct (run_mount_invariants passage trace) as (Hw & Hc).
  pose proof (run_currentText trace (mountWith passage)) as Htx.
  simpl in Htx. cbv zeta.
  set (s := run (mountWith passage) trace) in *.
  assert (Hpos : 0 < JS.length (currentText s)) by (rewrite Htx; exact Hnonempty).
  pose proof (settled_finished_iff_completed s Hc Hpos) as E.
  split; [exact E | split; [| split]].
  - unfold completedClass. rewrite <- E. apply andb_negb_r.
  - destruct Hc as (_ & Hfin & _).
    destruct (isFinished s); [right; apply Hfin; reflexivity | left; reflexivity].
  - intros ev clk Hcls.
    destruct (dispatch_completed_unfinished s ev Hw Hc Hpos Hcls)
      as (Hs & Ha & Hnf & Hl & Hi).
    assert (Hf : isFinished (step s (clk, ev)) = true).
    { unfold step. cbn [fst snd]. now apply autoEnd_must_fire. }
    split; [exact Hs | split; [exact Hf |]].
    unfold completedClass. rewrite Hf. apply andb_false_r.
Qed.

Lemma completed_class_only_before_effect_witness :
  let clk := mkClock 0 "" in
  let s := run (mountWith "ab") [ (clk, press "x") ] in
  0 < JS.length "ab"
  /\ completedClass (dispatch s (press "b")) = true
  /\ isFinished (step s (clk, press "b")) = true
  /\ completedClass (step s (clk, press "b")) = false.
Proof.
  assert (H : 0 < JS.length "ab") by reflexivity.
  assert (Hc : completedClass
                 (dispatch (run (mountWith "ab") [ (mkClock 0 "", press "x") ])
                           (press "b")) = true) by reflexivity.
  destruct (proj2 (proj2 (proj2
              (completed_class_only_before_effect "ab"
                 [ (mkClock 0 "", press "x") ] H)))
              (press "b") (mkClock 0 "") Hc) as (_ & A & B).
  split; [exact H | split; [exact Hc | split; [exact A | exact B]]].
Defined.

Lemma finished_state_frozen (s : State) (o : Clock * Event) :
  coherent s -> isFinished s = true ->
  (match snd o with ClickText _ => false | _ => true end) = true ->
  step s o = s.
Proof.
  intros (_ & Hfin & _) Hf Hev. destruct (Hfin Hf) as (Ha & Hl).
  assert (D : dispatch s (snd o) = s).
  { destruct (snd o) as [e | | index |]; simpl; try discriminate Hev.
    - unfold handleKeyDown. apply Z.leb_le in Hl. rewrite Hl. reflexivity.
    - unfold tick. rewrite Ha. reflexivity.
    - reflexivity. }
  unfold step. rewrite D. now apply autoEnd_finished.
Qed.

(** X9.  Once a session reached from a fresh one is finished, every key, timer
    tick and render leaves the whole state as it is; only a passage click
    changes it. *)
Theorem finished_session_is_frozen
    (passage : string) (trace : list (Clock * Event)) (o : Clock * Event)
    (Hfinished : isFinished (run (mountWith passage) trace) = true)
    (Hevent : (match snd o with ClickText _ => false | _ => true end) = true) :
  step (run (mountWith passage) trace) o = run (mountWith passage) trace.
Proof.
  apply finished_state_frozen; auto. apply run_mount_invariants.
Qed.

Lemma finished_session_is_frozen_witness :
  let clk := mkClock 0 "" in
  let trace := [ (clk, press "a"); (clk, press "b") ] in
  isFinished (run (mountWith "ab") trace) = true
  /\ step (run (mountWith "ab") trace) (clk, press "Backspace")
     = run (mountWith "ab") trace.
Proof.
  set (clk := mkClock 0 "").
  set (trace := [ (clk, press "a"); (clk, press "b") ]).
  assert (H : isFinished (run (mountWith "ab") trace) = true) by reflexivity.
  split; [exact H|].
  exact (finished_session_is_frozen "ab" trace (clk, press "Backspace")
           H eq_refl).
Defined.

(** ** The result log *)

Lemma substring_whole (t : string) (n : nat) :
  (String.length t <= n)%nat -> String.substring 0 n t = t.
Proof.
  revert n. induction t as [|c t IH]; intros n H.
  - destruct n; reflexivity.
  - destruct n as [|n]; simpl in *; [lia|]. rewrite IH by lia. reflexivity.
Qed.

Lemma substring0_whole (t : string) (n : Z) :
  JS.length t <= n -> JS.substring0 t n = t.
Proof.
  unfold JS.length, JS.substring0. intros H. apply substring_whole. lia.
Qed.

Lemma step_logOfSession (s : State) (o : Clock * Event) :
  (match snd o with ClickText _ => false | _ => true end) = true ->
  coherent s -> logOfSession s -> logOfSession (step s o).
Proof.
  intros Hev Hc Hlog.
  destruct (isFinished s) eqn:Ef.
  - rewrite (finished_state_frozen s o Hc Ef Hev). exact Hlog.
  - unfold logOfSession in Hlog. rewrite Ef in Hlog.
    destruct (dispatch_session_frame s (snd o) Hev) as (Hl & Hf).
    unfold step, logOfSession.
    set (d := dispatch s (snd o)) in *.
    rewrite Ef in Hf. rewrite Hlog in Hl.
    destruct (isFinished (autoEnd (fst o) d)) eqn:Ef'.
    + destruct (autoEnd_fired (fst o) d Hf Ef') as (Hlen & _ & ->).
      simpl. rewrite Hl, (substring0_whole _ _ Hlen). eauto.
    + destruct (autoEnd_cases (fst o) d) as [E | (_ & F & _)];
        [rewrite E; exact Hl | congruence].
Qed.

(** X10.  Within one session started on a fresh component, the log is empty
    until the session is finished and then holds exactly one summary: the
    whole passage, and the elapsed time, words per minute, accuracy, error
    and Backspace counts that the statistics still show. *)
Theorem one_summary_of_final_statistics
    (passage : string) (trace : list (Clock * Event))
    (Hsession : withinSession trace = true) :
  let s := run (mountWith passage) trace in
  if isFinished s
  then exists i ts,
      savedResults s
      = [ SavedResult.mk i passage (elapsed (stats s)) (wpm (stats s))
            (accuracy (stats s)) (errors (stats s)) (backspaces (stats s)) ts ]
  else savedResults s = [].
Proof.
  assert (G : forall tr s, withinSession tr = true ->
                wellFormed s -> coherent s -> logOfSession s ->
                logOfSession (run s tr)).
  { induction tr as [|o tr IH]; intros s Hw Hwf Hc Hl; [exact Hl|].
    simpl in Hw. apply andb_prop in Hw as (Ho & Hw).
    rewrite run_cons. apply IH; auto.
    - now apply step_wellFormed.
    - now apply step_coherent.
    - now apply step_logOfSession. }
  specialize (G trace (mountWith passage) Hsession
                (mountWith_wellFormed passage) (mountWith_coherent passage)
                eq_refl).
  unfold logOfSession in G.
  rewrite (run_currentText trace (mountWith passage)) in G. exact G.
Qed.

Lemma one_summary_of_final_statistics_witness :
  let clk := mkClock 1700000000000 "14/11/2023, 22:13:20" in
  let trace := [ (clk, press "x"); (clk, Tick); (clk, press "b") ] in
  withinSession trace = true
  /\ savedResults (run (mountWith "ab") trace)
     = [ SavedResult.mk "1700000000000" "ab" 1 12 50 1 0 "14/11/2023, 22:13:20" ]
  /\ (if isFinished (run (mountWith "ab") trace)
      then exists i ts,
          savedResults (run (mountWith "ab") trace)
          = [ SavedResult.mk i "ab"
                (elapsed (stats (run (mountWith "ab") trace)))
                (wpm (stats (run (mountWith "ab") trace)))
                (accuracy (stats (run (mountWith "ab") trace)))
                (errors (stats (run (mountWith "ab") trace)))
                (backspaces (stats (run (mountWith "ab") trace))) ts ]
      else savedResults (run (mountWith "ab") trace) = []).
Proof.
  set (clk := mkClock 1700000000000 "14/11/2023, 22:13:20").
  set (trace := [ (clk, press "x"); (clk, Tick); (clk, press "b") ]).
  assert (H : withinSession trace = true) by reflexivity.
  split; [exact H | split; [vm_compute; reflexivity |]].
  exact (one_summary_of_final_statistics "ab" trace H).
Defined.

Lemma step_log_grows (s : State) (o : Clock * Event) :
  exists added, savedResults (step s o) = (added ++ savedResults s)%list.
Proof.
  assert (D : savedResults (dispatch s (snd o)) = savedResults s).
  { destruct (snd o) as [e | | index |]; simpl.
    - apply handleKeyDown_frame.
    - apply tick_frame.
    - case_if; reflexivity.
    - reflexivity. }
  unfold step.
  destruct (autoEnd_cases (fst o) (dispatch s (snd o)))
    as [E | (_ & _ & _ & r & Hr)].
  - exists []. rewrite E. exact D.
  - exists [r]. rewrite Hr, D. reflexivity.
Qed.

(** X11.  The log is append-only: whatever happens (keys, ticks, passage clicks,
    renders), the log afterwards is the log before with newer summaries in
    front; no entry is ever dropped, changed or reordered. *)
Theorem log_is_append_only (s : State) (trace : list (Clock * Event)) :
  exists added, savedResults (run s trace) = (added ++ savedResults s)%list.
Proof.
  revert s. induction trace as [|o trace IH]; intros s.
  - exists []. reflexivity.
  - rewrite run_cons. destruct (IH (step s o)) as (l1 & H1).
    destruct (step_log_grows s o) as (l2 & H2).
    exists (l1 ++ l2)%list. rewrite H1, H2, app_assoc. reflexivity.
Qed.

(** ** Counters only grow *)

Lemma step_counters_grow (s : State) (o : Clock * Event) :
  (match snd o with ClickText _ => false | _ => true end) = true ->
  elapsed (stats s) <= elapsed (stats (step s o))
  /\ correctChars (stats s) <= correctChars (stats (step s o))
  /\ totalChars (stats s) <= totalChars (stats (step s o))
  /\ errors (stats s) <= errors (stats (step s o))
  /\ backspaces (stats s) <= backspaces (stats (step s o)).
Proof.
  intros Hev. unfold step.
  destruct (autoEnd_frame (fst o) (dispatch s (snd o))) as (_ & _ & _ & ->).
  destruct (snd o) as [e | | index |]; simpl; try discriminate Hev.
  - unfold handleKeyDown. rewrite activate_eq.
    repeat case_if; simpl; lia.
  - unfold tick. case_if; simpl; lia.
  - lia.
Qed.

(** X12.  Within a session (no passage click) no statistic ever decreases:
    elapsed time, correct, total, error and Backspace counts at the end of
    any sequence of keys, ticks and renders are at least what they were. *)
Theorem counters_never_decrease
    (s : State) (trace : list (Clock * Event))
    (Hsession : withinSession trace = true) :
  elapsed (stats s) <= elapsed (stats (run s trace))
  /\ correctChars (stats s) <= correctChars (stats (run s trace))
  /\ totalChars (stats s) <= totalChars (stats (run s trace))
  /\ errors (stats s) <= errors (stats (run s trace))
  /\ backspaces (stats s) <= backspaces (stats (run s trace)).
Proof.
  revert s Hsession. induction trace as [|o trace IH]; intros s Hw.
  - simpl. lia.
  - simpl in Hw. apply andb_prop in Hw as (Ho & Hw).
    rewrite run_cons.
    pose proof (step_counters_grow s o Ho). pose proof (IH (step s o) Hw).
    lia.
Qed.

Lemma counters_never_decrease_witness :
  let clk := mkClock 0 "" in
  let trace := [ (clk, press "a"); (clk, press "Backspace"); (clk, Tick) ] in
  withinSession trace = true
  /\ correctChars (stats (mountWith "ab"))
     <= correctChars (stats (run (mountWith "ab") trace)).
Proof.
  set (clk := mkClock 0 "").
  set (trace := [ (clk, press "a"); (clk, press "Backspace"); (clk, Tick) ]).
  assert (H : withinSession trace = true) by reflexivity.
  split; [exact H|].
  exact (proj1 (proj2 (counters_never_decrease (mountWith "ab") trace H))).
Defined.

(** ** Typing the passage *)

Lemma JS_length_app (a b : string) :
  JS.length (a ++ b) = JS.length a + JS.length b.
Proof.
  unfold JS.length. induction a as [|x a IH]; simpl String.length.
  - simpl. lia.
  - change ((String x a) ++ b) with (String x (a ++ b)).
    simpl String.length. lia.
Qed.

Lemma JS_length_cons (c : ascii) (t : string) :
  JS.length (String c t) = 1 + JS.length t.
Proof. unfold JS.length. simpl String.length. lia. Qed.

Lemma at_index_after_prefix (pre rest : string) (c : ascii) :
  JS.at_index (pre ++ String c rest) (JS.length pre)
  = Some (String c EmptyString).
Proof.
  unfold JS.at_index, JS.length.
  destruct (Z.of_nat (String.length pre) <? 0) eqn:E;
    [apply Z.ltb_lt in E; lia|].
  rewrite Nat2Z.id.
  pose proof (append_correct2 pre (String c rest) 0) as H.
  simpl in H. rewrite <- H. reflexivity.
Qed.

Lemma press_is_printable (c : ascii) :
  String.eqb (String c EmptyString) "Backspace" = false
  /\ ignoredKey (mkKey (String c EmptyString) false false false) = false.
Proof.
  split; [| reflexivity].
  simpl. destruct (Ascii.eqb c "B"); reflexivity.
Qed.

Lemma handleKeyDown_right_key (s : State) (c : ascii) :
  currentIndex s < JS.length (currentText s) ->
  JS.at_index (currentText s) (currentIndex s) = Some (String c EmptyString) ->
  handleKeyDown s (mkKey (String c EmptyString) false false false)
  = setStats countCorrect
      (setCurrentIndex (currentIndex s + 1) (setIsActive true s)).
Proof.
  intros Hlt Hat. unfold handleKeyDown.
  destruct (press_is_printable c) as (Hb & Hi).
  apply Z.leb_gt in Hlt.
  rewrite Hlt, activate_eq. cbn [key]. rewrite Hb, Hi, Hat.
  unfold JS.strict_eq. rewrite String.eqb_refl. reflexivity.
Qed.

Lemma typeText_completes (clk : Clock) (rest pre : string) (s : State) :
  currentText s = pre ++ rest ->
  currentIndex s = JS.length pre ->
  isFinished s = false ->
  0 < JS.length rest ->
  currentIndex (run s (typeText clk rest)) = JS.length (currentText s)
  /\ correctChars (stats (run s (typeText clk rest)))
     = correctChars (stats s) + JS.length rest
  /\ errors (stats (run s (typeText clk rest))) = errors (stats s)
  /\ backspaces (stats (run s (typeText clk rest))) = backspaces (stats s)
  /\ isFinished (run s (typeText clk rest)) = true
  /\ isActive (run s (typeText clk rest)) = false
  /\ exists r, savedResults (run s (typeText clk rest)) = r :: savedResults s.
Proof.
  revert pre s. induction rest as [|c rest IH]; intros pre s Htx Hix Hf Hpos.
  - unfold JS.length in Hpos. simpl in Hpos. lia.
  - change (typeText clk (String c rest))
      with ((clk, press (String c EmptyString)) :: typeText clk rest).
    rewrite run_cons.
    assert (Hlen : JS.length (currentText s)
                   = JS.length pre + (1 + JS.length rest)).
    { rewrite Htx, JS_length_app, JS_length_cons. reflexivity. }
    pose proof (JS_length_nonneg pre) as Hp0.
    pose proof (JS_length_nonneg rest) as Hr0.
    assert (Hd : dispatch s (press (String c EmptyString))
                 = setStats countCorrect
                     (setCurrentIndex (currentIndex s + 1)
                        (setIsActive true s))).
    { simpl. apply handleKeyDown_right_key; [lia|].
      rewrite Htx, Hix. apply at_index_after_prefix. }
    set (d := setStats countCorrect
                (setCurrentIndex (currentIndex s + 1) (setIsActive true s)))
      in *.
    assert (Hstep : step s (clk, press (String c EmptyString))
                    = autoEnd clk d).
    { unfold step. cbn [fst snd]. rewrite Hd. reflexivity. }
    rewrite Hstep, JS_length_cons.
    destruct rest as [|c' rest'].
    + (* the last character: the effect fires *)
      change (JS.length EmptyString) with 0 in *.
      assert (Hfire : isFinished (autoEnd clk d) = true).
      { apply autoEnd_must_fire; simpl; auto; lia. }
      destruct (autoEnd_fired clk d Hf Hfire) as (_ & _ & E).
      change (run (autoEnd clk d) (typeText clk EmptyString))
        with (autoEnd clk d).
      rewrite E. simpl.
      repeat split; try lia; eauto.
    + (* more to type: the effect does nothing *)
      assert (Hpos' : 0 < JS.length (String c' rest')).
      { rewrite JS_length_cons. pose proof (JS_length_nonneg rest'). lia. }
      rewrite autoEnd_unfinished_text by (simpl; lia).
      destruct (IH (pre ++ String c EmptyString) d)
        as (A & B & C & D & E & F & G).
      * simpl. rewrite Htx, string_app_assoc. reflexivity.
      * simpl. rewrite JS_length_app, JS_length_cons, Hix.
        change (JS.length EmptyString) with 0. lia.
      * exact Hf.
      * exact Hpos'.
      * change (currentText d) with (currentText s) in A.
        change (correctChars (stats d)) with (correctChars (stats s) + 1) in B.
        change (errors (stats d)) with (errors (stats s)) in C.
        change (backspaces (stats d)) with (backspaces (stats s)) in D.
        change (savedResults d) with (savedResults s) in G.
        repeat split; auto; lia.
Qed.

(** X13.  Typing a non-empty passage character by character, each key the right
    one, finishes the session: the cursor is at the end, every character is
    counted correct, there are no errors and no Backspaces, the session is
    finished and inactive and exactly one summary has been logged. *)
Theorem typing_the_passage_finishes (clk : Clock) (passage : string)
    (Hnonempty : 0 < JS.length passage) :
  let s := run (mountWith passage) (typeText clk passage) in
  currentIndex s = JS.length passage
  /\ correctChars (stats s) = JS.length passage
  /\ errors (stats s) = 0
  /\ backspaces (stats s) = 0
  /\ isFinished s = true
  /\ isActive s = false
  /\ exists r, savedResults s = [r].
Proof.
  destruct (typeText_completes clk passage EmptyString (mountWith passage))
    as (A & B & C & D & E & F & r & G);
    [reflexivity | reflexivity | reflexivity | exact Hnonempty |].
  change (currentText (mountWith passage)) with passage in A.
  change (correctChars (stats (mountWith passage))) with 0 in B.
  change (errors (stats (mountWith passage))) with 0 in C.
  change (backspaces (stats (mountWith passage))) with 0 in D.
  change (savedResults (mountWith passage)) with (@nil SavedResult.t) in G.
  cbv zeta. repeat split; try assumption; try lia. exists r; exact G.
Qed.

Lemma typing_the_passage_finishes_witness :
  let clk := mkClock 0 "" in
  0 < JS.length "cab"
  /\ currentIndex (run (mountWith "cab") (typeText clk "cab")) = 3
  /\ correctChars (stats (run (mountWith "cab") (typeText clk "cab"))) = 3.
Proof.
  assert (H : 0 < JS.length "cab") by reflexivity.
  destruct (typing_the_passage_finishes (mkClock 0 "") "cab" H)
    as (A & B & _).
  split; [exact H | split; [exact A | exact B]].
Defined.

(** ** What the text display shows *)

(** X14.  A wrong key paints its character like a right one: before the key the
    character under the cursor has the class [current], and after a
    mismatched printable key that same character has the class [correct]. *)
Theorem mistyped_character_shown_correct (s : State) (e : KeyboardEvent)
    (Hmismatch : mismatched s e = true) :
  charClass s (currentIndex s) = "current"
  /\ charClass (handleKeyDown s e) (currentIndex s) = "correct".
Proof.
  rewrite (handleKeyDown_mismatch s e Hmismatch).
  unfold charClass. simpl.
  rewrite Z.ltb_irrefl, Z.eqb_refl.
  assert (H : (currentIndex s <? currentIndex s + 1) = true)
    by (apply Z.ltb_lt; lia).
  rewrite H. split; reflexivity.
Qed.

Lemma mistyped_character_shown_correct_witness :
  let s := mountWith "ab" in
  let e := mkKey "x" false false false in
  mismatched s e = true
  /\ charClass (handleKeyDown s e) 0 = "correct".
Proof.
  assert (H : mismatched (mountWith "ab") (mkKey "x" false false false) = true)
    by reflexivity.
  split; [exact H|].
  exact (proj2 (mistyped_character_shown_correct (mountWith "ab")
                  (mkKey "x" false false false) H)).
Defined.

(** ** Backspace does not undo the counters *)

(** X15.  Taking one character back and typing a character again puts the cursor
    where it was, but the statistics keep everything: one more Backspace,
    one more typed character, and correct and wrong keys together one more
    than before. *)
Theorem backspace_then_key_counts_twice (s : State) (b e : KeyboardEvent)
    (Hcursor : 0 < currentIndex s < JS.length (currentText s))
    (Hback : String.eqb (key b) "Backspace" = true)
    (Hkey : String.eqb (key e) "Backspace" = false)
    (Hprintable : ignoredKey e = false) :
  let s' := handleKeyDown (handleKeyDown s b) e in
  currentIndex s' = currentIndex s
  /\ backspaces (stats s') = backspaces (stats s) + 1
  /\ totalChars (stats s') = totalChars (stats s) + 1
  /\ correctChars (stats s') + errors (stats s')
     = correctChars (stats s) + errors (stats s) + 1.
Proof.
  destruct Hcursor as (H0 & H1).
  assert (E1 : handleKeyDown s b
               = setStats countBackspace
                   (setCurrentIndex (currentIndex s - 1) (setIsActive true s))).
  { unfold handleKeyDown. apply Z.leb_gt in H1. apply Z.ltb_lt in H0.
    rewrite H1, Hback, H0, activate_eq. reflexivity. }
  rewrite E1. cbv zeta. unfold handleKeyDown. simpl.
  assert (E2 : (JS.length (currentText s) <=? currentIndex s - 1) = false)
    by (apply Z.leb_gt; lia).
  rewrite E2, Hkey, Hprintable.
  case_if; simpl; repeat split; lia.
Qed.

Lemma backspace_then_key_counts_twice_witness :
  let s := run (mountWith "ab") [ (mkClock 0 "", press "x") ] in
  let b := mkKey "Backspace" false false false in
  let e := mkKey "a" false false false in
  0 < currentIndex s < JS.length (currentText s)
  /\ currentIndex (handleKeyDown (handleKeyDown s b) e) = currentIndex s
  /\ totalChars (stats (handleKeyDown (handleKeyDown s b) e)) = 2.
Proof.
  set (s := run (mountWith "ab") [ (mkClock 0 "", press "x") ]).
  assert (H : 0 < currentIndex s < JS.length (currentText s))
    by (vm_compute; split; reflexivity).
  destruct (backspace_then_key_counts_twice s
              (mkKey "Backspace" false false false)
              (mkKey "a" false false false) H eq_refl eq_refl eq_refl)
    as (A & _ & C & _).
  split; [exact H | split; [exact A | exact C]].
Defined.

(** ** The passage line of a saved result *)

Lemma substring_length (t : string) (n : nat) :
  String.length (String.substring 0 n t) = Nat.min n (String.length t).
Proof.
  revert n. induction t as [|c t IH]; intros n.
  - destruct n; reflexivity.
  - destruct n as [|n]; simpl; [reflexivity | now rewrite IH].
Qed.

(** X16.  The passage line of a saved result never exceeds 53 characters; a text
    of at most 50 characters is shown whole, a longer one is cut to its
    first 50 characters followed by three dots. *)
Theorem resultTextShown_truncates (r : SavedResult.t) :
  JS.length (resultTextShown r) <= 53
  /\ (if JS.length (SavedResult.text r) <=? 50
      then resultTextShown r = SavedResult.text r
      else resultTextShown r
           = String.substring 0 50 (SavedResult.text r) ++ "..."
           /\ JS.length (resultTextShown r) = 53).
Proof.
  unfold resultTextShown. rewrite (Z.ltb_antisym _ 50).
  assert (L : JS.length (JS.substring0 (SavedResult.text r) 50)
              = Z.min 50 (JS.length (SavedResult.text r))).
  { unfold JS.length, JS.substring0. rewrite substring_length.
    change (Z.to_nat 50) with 50%nat. lia. }
  destruct (JS.length (SavedResult.text r) <=? 50) eqn:E; simpl negb; cbv iota.
  - apply Z.leb_le in E. rewrite (substring0_whole _ _ E).
    assert (A : forall t : string, t ++ "" = t).
    { induction t as [|c t IH]; simpl; [reflexivity | now rewrite IH]. }
    rewrite A. split; [lia | reflexivity].
  - apply Z.leb_gt in E.
    assert (K : JS.length (JS.substring0 (SavedResult.text r) 50 ++ "...") = 53).
    { rewrite JS_length_app, L. change (JS.length "...") with 3. lia. }
    rewrite K. split; [lia | split; [reflexivity | reflexivity]].
Qed.

(** ** The earlier variant: strict advance *)

Lemma Part000_dispatch_invariant (s : Part000.State) (ev : Part000Session.Event) :
  0 <= Part000.currentIndex s <= JS.length (Part000.currentText s)
  /\ correctChars (Part000.stats s)
     = Part000.currentIndex s + backspaces (Part000.stats s)
  /\ totalChars (Part000.stats s)
     = correctChars (Part000.stats s) + errors (Part000.stats s) ->
  Part000.currentText (Part000Session.dispatch s ev) = Part000.currentText s
  /\ 0 <= Part000.currentIndex (Part000Session.dispatch s ev)
       <= JS.length (Part000.currentText s)
  /\ correctChars (Part000.stats (Part000Session.dispatch s ev))
     = Part000.currentIndex (Part000Session.dispatch s ev)
       + backspaces (Part000.stats (Part000Session.dispatch s ev))
  /\ totalChars (Part000.stats (Part000Session.dispatch s ev))
     = correctChars (Part000.stats (Part000Session.dispatch s ev))
       + errors (Part000.stats (Part000Session.dispatch s ev)).
Proof.
  intros ((H0 & H1) & Hc & Ht).
  pose proof (JS_length_nonneg (Part000.currentText s)) as Hl.
  destruct ev as [e | | index |]; simpl.
  - unfold Part000.handleKeyDown.
    repeat case_if; simpl; bool_to_Z; repeat split; lia.
  - unfold Part000.tick. case_if; simpl; repeat split; lia.
  - case_if; simpl; repeat split; lia.
  - repeat split; lia.
Qed.

(** X17.  In the earlier variant the cursor only moves on a right key: in every
    state reached from a fresh session by keys, ticks, passage clicks and
    resets, the cursor lies within the passage, the correct count is the
    cursor position plus the Backspaces taken (errors do not enter), and the
    total is the sum of correct and wrong keys. *)
Theorem Part000_correct_count_is_progress
    (passage : string) (trace : list Part000Session.Event) :
  let s := Part000Session.run (Part000.mountWith passage) trace in
  Part000.currentText s = passage
  /\ 0 <= Part000.currentIndex s <= JS.length passage
  /\ correctChars (Part000.stats s)
     = Part000.currentIndex s + backspaces (Part000.stats s)
  /\ totalChars (Part000.stats s)
     = correctChars (Part000.stats s) + errors (Part000.stats s).
Proof.
  assert (G : forall tr s,
             0 <= Part000.currentIndex s <= JS.length (Part000.currentText s)
             /\ correctChars (Part000.stats s)
                = Part000.currentIndex s + backspaces (Part000.stats s)
             /\ totalChars (Part000.stats s)
                = correctChars (Part000.stats s) + errors (Part000.stats s) ->
             let s' := Part000Session.run s tr in
             Part000.currentText s' = Part000.currentText s
             /\ 0 <= Part000.currentIndex s' <= JS.length (Part000.currentText s)
             /\ correctChars (Part000.stats s')
                = Part000.currentIndex s' + backspaces (Part000.stats s')
             /\ totalChars (Part000.stats s')
                = correctChars (Part000.stats s') + errors (Part000.stats s')).
  { induction tr as [|ev tr IH]; intros s H; cbv zeta.
    - change (Part000Session.run s []) with s. tauto.
    - change (Part000Session.run s (ev :: tr))
        with (Part000Session.run (Part000Session.dispatch s ev) tr).
      destruct (Part000_dispatch_invariant s ev H) as (Htx & Hi & Hc & Ht).
      specialize (IH (Part000Session.dispatch s ev)).
      cbv zeta in IH. rewrite Htx in IH. apply IH. auto. }
  apply (G trace (Part000.mountWith passage)). simpl.
  pose proof (JS_length_nonneg passage). lia.
Qed.

(** X18.  In the earlier variant a wrong key can be retried: after a mismatched
    printable key the cursor is where it was, and the right key typed next
    advances it by one, with one error and one correct key counted. *)
Theorem Part000_wrong_key_can_be_retried
    (s : Part000.State) (wrong right : KeyboardEvent)
    (Hcursor : Part000.currentIndex s < JS.length (Part000.currentText s))
    (Hw1 : String.eqb (key wrong) "Backspace" = false)
    (Hw2 : ignoredKey wrong = false)
    (Hw3 : JS.strict_eq (key wrong)
             (JS.at_index (Part000.currentText s) (Part000.currentIndex s))
           = false)
    (Hr1 : String.eqb (key right) "Backspace" = false)
    (Hr2 : ignoredKey right = false)
    (Hr3 : JS.strict_eq (key right)
             (JS.at_index (Part000.currentText s) (Part000.currentIndex s))
           = true) :
  let s1 := Part000.handleKeyDown s wrong in
  let s2 := Part000.handleKeyDown s1 right in
  Part000.currentIndex s1 = Part000.currentIndex s
  /\ Part000.currentIndex s2 = Part000.currentIndex s + 1
  /\ errors (Part000.stats s2) = errors (Part000.stats s) + 1
  /\ correctChars (Part000.stats s2) = correctChars (Part000.stats s) + 1.
Proof.
  apply Z.leb_gt in Hcursor.
  assert (E1 : Part000.handleKeyDown s wrong
               = Part000.setStats countError (Part000.setIsActive true s)).
  { unfold Part000.handleKeyDown. rewrite Hcursor, Hw1, Hw2, Hw3.
    destruct s as [ti tx ix st act]; simpl. destruct act; reflexivity. }
  cbv zeta. rewrite E1. unfold Part000.handleKeyDown. simpl.
  rewrite Hcursor, Hr1, Hr2, Hr3. simpl. repeat split; reflexivity.
Qed.

Lemma Part000_wrong_key_can_be_retried_witness :
  let s := Part000.mountWith "ab" in
  let wrong := mkKey "x" false false false in
  let right := mkKey "a" false false false in
  Part000.currentIndex s < JS.length (Part000.currentText s)
  /\ Part000.currentIndex (Part000.handleKeyDown s wrong) = 0
  /\ Part000.currentIndex
       (Part000.handleKeyDown (Part000.handleKeyDown s wrong) right) = 1.
Proof.
  assert (H : Part000.currentIndex (Part000.mountWith "ab")
              < JS.length (Part000.currentText (Part000.mountWith "ab")))
    by reflexivity.
  destruct (Part000_wrong_key_can_be_retried (Part000.mountWith "ab")
              (mkKey "x" false false false) (mkKey "a" false false false)
              H eq_refl eq_refl eq_refl eq_refl eq_refl eq_refl)
    as (A & B & _).
  split; [exact H | split; [exact A | exact B]].
Defined.

(** ** The statistics against exact arithmetic *)

(** X19.  Up to 199 typed characters the accuracy is a percentage between 0 and
    100, equal to the exactly rounded percentage of correct keys (halves
    up) or one below it, never above. *)
Theorem accuracy_is_a_percentage (st : Stats)
    (Hc : 0 <= correctChars st) (He : 0 <= errors st)
    (Hsmall : correctChars st + errors st < 200) :
  0 <= accuracy st <= 100
  /\ accuracy_exact (correctChars st) (errors st) - 1 <= accuracy st
     <= accuracy_exact (correctChars st) (errors st).
Proof.
  change (accuracy st)
    with (accuracy (mkStats 0 (correctChars st) 0 (errors st) 0)).
  apply (accuracyChecked_sound (Z.to_nat 200)).
  - exact accuracyChecked_200.
  - exact Hc.
  - exact He.
  - rewrite Z2Nat.id; lia.
Qed.

Lemma accuracy_is_a_percentage_witness :
  let st := mkStats 30 90 106 16 4 in
  0 <= correctChars st /\ 0 <= errors st
  /\ correctChars st + errors st < 200
  /\ 0 <= accuracy st <= 100.
Proof.
  assert (H1 : 0 <= correctChars (mkStats 30 90 106 16 4)) by (simpl; lia).
  assert (H2 : 0 <= errors (mkStats 30 90 106 16 4)) by (simpl; lia).
  assert (H3 : correctChars (mkStats 30 90 106 16 4)
               + errors (mkStats 30 90 106 16 4) < 200) by (simpl; lia).
  split; [exact H1 | split; [exact H2 | split; [exact H3 |]]].
  exact (proj1 (accuracy_is_a_percentage (mkStats 30 90 106 16 4) H1 H2 H3)).
Defined.

Lemma wpmChecked_sound (nc ne : nat) (c e : Z) :
  wpmChecked nc ne = true ->
  0 <= c < Z.of_nat nc -> 1 <= e <= Z.of_nat ne ->
  let w := wpm (mkStats e c 0 0 0) in
  0 <= w /\ wpm_exact c e - 1 <= w <= wpm_exact c e.
Proof.
  unfold wpmChecked. intros H Hc He.
  rewrite forallb_forall in H.
  specialize (H (Z.to_nat e)).
  rewrite forallb_forall in H.
  assert (H1 : In (Z.to_nat e) (seq 1 ne)) by (apply in_seq; lia).
  assert (H2 : In (Z.to_nat c) (seq 0 nc)) by (apply in_seq; lia).
  specialize (H H1 (Z.to_nat c) H2). cbv zeta in H.
  rewrite !Z2Nat.id in H by lia.
  apply andb_prop in H as (H & A3). apply andb_prop in H as (A1 & A2).
  cbv zeta. bool_to_Z. lia.
Qed.

Lemma wpmChecked_2_minutes : wpmChecked (Z.to_nat 121) (Z.to_nat 120) = true.
Proof. vm_compute. reflexivity. Qed.

(** X20.  For up to 120 correct characters in 1 to 120 seconds, the words per
    minute shown are non-negative and are [12 * correct / elapsed] rounded
    exactly (halves up) or one below it, never above. *)
Theorem wpm_close_to_exact (st : Stats)
    (Hc : 0 <= correctChars st <= 120) (He : 1 <= elapsed st <= 120) :
  0 <= wpm st
  /\ wpm_exact (correctChars st) (elapsed st) - 1 <= wpm st
     <= wpm_exact (correctChars st) (elapsed st).
Proof.
  change (wpm st) with (wpm (mkStats (elapsed st) (correctChars st) 0 0 0)).
  apply (wpmChecked_sound (Z.to_nat 121) (Z.to_nat 120)).
  - exact wpmChecked_2_minutes.
  - rewrite Z2Nat.id; lia.
  - rewrite Z2Nat.id; lia.
Qed.

Lemma wpm_close_to_exact_witness :
  let st := mkStats 24 3 3 0 0 in
  0 <= correctChars st <= 120 /\ 1 <= elapsed st <= 120
  /\ wpm st = 1 /\ wpm_exact 3 24 = 2
  /\ wpm_exact (correctChars st) (elapsed st) - 1 <= wpm st
     <= wpm_exact (correctChars st) (elapsed st).
Proof.
  assert (H1 : 0 <= correctChars (mkStats 24 3 3 0 0) <= 120) by (simpl; lia).
  assert (H2 : 1 <= elapsed (mkStats 24 3 3 0 0) <= 120) by (simpl; lia).
  split; [exact H1 | split; [exact H2 |]].
  split; [vm_compute; reflexivity | split; [reflexivity |]].
  exact (proj2 (wpm_close_to_exact (mkStats 24 3 3 0 0) H1 H2)).
Defined.
